(** * GIS-Named-Erratics: the description-clustering scripts

    A shallow embedding of [arcgis/clustering-test-2.py] (sentence embeddings,
    HDBSCAN, TF-IDF cluster terms, folium map) and of its earlier sibling
    [arcgis/clustering-test.py] (UMAP + DBSCAN).

    What the scripts compute themselves is embedded as executable functions:
    [preprocess_text], [get_top_tfidf_terms], the cluster analysis loop, the
    colour table and the markers of [generate_cluster_map].  The external
    collaborators are parameters: the WordNet lemmatizer, the NLTK stop-word
    set, the sentence encoder, the clusterer, numpy's [argsort], the
    floating-point summation behind [Series.mean] and the TF-IDF weighting
    of scikit-learn.  Two checks of the libraries decide how a run ends and
    are embedded: scikit-learn's vocabulary building, which raises on an
    empty vocabulary, and folium's validation of a location, which raises
    on a NaN.  The embedding covers the runs in which the encoder and the
    clusterer return. *)

From Stdlib Require Import List String Ascii Bool Arith NArith ZArith QArith.
From Stdlib Require Import Lia Lqa Permutation Sorted.
From Stdlib Require Import DecimalString OrderedTypeEx.
Import ListNotations.

Local Close Scope Q_scope.
Local Open Scope list_scope.
Local Open Scope string_scope.

(** ** Python text

    A [str] is embedded as a [string] whose characters are the code points
    0..255 (the Latin-1 repertoire).  The three character-level facts the
    scripts use are Python's own on that range: [str.isspace] (which is also
    what [\s] and [str.split] use), the [\w] class of [re] on [str] patterns,
    and [str.lower]. *)
Module PyStr.

Definition code (c : ascii) : N := N_of_ascii c.

Definition between (lo hi : N) (c : ascii) : bool :=
  (N.leb lo (code c) && N.leb (code c) hi)%bool.

(** [str.isspace]: TAB..CR, FS..US, SPACE, NEL and NBSP. *)
Definition isspace (c : ascii) : bool :=
  (between 9 13 c || between 28 32 c
   || N.eqb (code c) 133 || N.eqb (code c) 160)%bool.

Definition isupper (c : ascii) : bool :=
  (between 65 90 c || between 192 214 c || between 216 222 c)%bool.

(** Alphanumeric in Python's sense: [isalpha], [isdecimal], [isdigit] or
    [isnumeric]. *)
Definition isalnum (c : ascii) : bool :=
  (between 48 57 c || between 65 90 c || between 97 122 c
   || N.eqb (code c) 170 || between 178 179 c || N.eqb (code c) 181
   || between 185 186 c || between 188 190 c
   || between 192 214 c || between 216 246 c || between 248 255 c)%bool.

(** The class [\w]: alphanumeric or the underscore. *)
Definition is_word (c : ascii) : bool :=
  (isalnum c || N.eqb (code c) 95)%bool.

Definition lower_char (c : ascii) : ascii :=
  if isupper c then ascii_of_N (code c + 32) else c.

(** [text.lower()] *)
Fixpoint lower (s : string) : string :=
  match s with
  | EmptyString => EmptyString
  | String c s' => String (lower_char c) (lower s')
  end.

(** [re.sub(r'[^\w\s]', '', text)]: every character that is neither a word
    character nor white space is deleted. *)
Fixpoint strip_punctuation (s : string) : string :=
  match s with
  | EmptyString => EmptyString
  | String c s' =>
      if (is_word c || isspace c)%bool
      then String c (strip_punctuation s')
      else strip_punctuation s'
  end.

(** A finished word is emitted unless it is empty. *)
Definition flush (cur : string) : list string :=
  match cur with
  | EmptyString => []
  | _ => [cur]
  end.

(** [text.split()] read left to right: [cur] is the word being collected. *)
Fixpoint split_from (cur s : string) : list string :=
  match s with
  | EmptyString => flush cur
  | String c s' =>
      if isspace c
      then flush cur ++ split_from EmptyString s'
      else split_from (cur ++ String c EmptyString) s'
  end.

Definition split (s : string) : list string := split_from EmptyString s.

(** [sep.join(words)] *)
Fixpoint join (sep : string) (words : list string) : string :=
  match words with
  | [] => EmptyString
  | [w] => w
  | w :: ws => w ++ sep ++ join sep ws
  end.

(** Every character of [s] satisfies [p]. *)
Fixpoint all_chars (p : ascii -> bool) (s : string) : bool :=
  match s with
  | EmptyString => true
  | String c s' => (p c && all_chars p s')%bool
  end.

Definition nonempty (s : string) : bool :=
  match s with
  | EmptyString => false
  | _ => true
  end.

(** [sorted] on strings compares code points lexicographically. *)
Definition str_lt (a b : string) : bool := String.ltb a b.

End PyStr.

(** ** [preprocess_text]

    Common to both scripts (clustering-test-2.py lines 20-28,
    clustering-test.py lines 21-28).  A missing description reaches the
    function as a null, embedded as [None]. *)
Section Preprocess.

(** [WordNetLemmatizer().lemmatize] *)
Variable lemmatize : string -> string.
(** Membership in [set(stopwords.words('english'))] *)
Variable stop_words : string -> bool.

Definition keep_words (words : list string) : list string :=
  filter (fun word => negb (stop_words word)) words.

Definition preprocess_text (text : option string) : string :=
  match text with
  | None => ""
  | Some text =>
      let text := PyStr.lower text in
      let text := PyStr.strip_punctuation text in
      let words := PyStr.split text in
      let words := map lemmatize (keep_words words) in
      PyStr.join " " words
  end.

(** The words that reach the lemmatizer. *)
Definition surviving_words (text : string) : list string :=
  keep_words (PyStr.split (PyStr.strip_punctuation (PyStr.lower text))).

End Preprocess.

(** A small stand-in for the two dictionaries, used to run the functions on
    concrete text: a fragment of NLTK's English stop words, and the WordNet
    lemmas of a few plural nouns (any other word is its own lemma, which is
    what the lemmatizer returns for a word WordNet does not know). *)
Module Dictionaries.

Definition nltk_stop_word_fragment : list string :=
  ["i"; "me"; "my"; "we"; "our"; "you"; "he"; "she"; "it"; "its"; "they";
   "this"; "that"; "these"; "those"; "am"; "is"; "are"; "was"; "were"; "be";
   "been"; "have"; "has"; "had"; "do"; "does"; "did"; "a"; "an"; "the";
   "and"; "but"; "if"; "or"; "as"; "of"; "at"; "by"; "for"; "with"; "to";
   "from"; "up"; "down"; "in"; "out"; "on"; "off"; "over"; "under"; "no";
   "not"; "so"; "than"; "too"; "very"; "s"; "t"; "can"; "will"; "just";
   "now"].

Definition stop_words (word : string) : bool :=
  existsb (String.eqb word) nltk_stop_word_fragment.

Definition lemmatize (word : string) : string :=
  if String.eqb word "cans" then "can"
  else if String.eqb word "boulders" then "boulder"
  else if String.eqb word "rocks" then "rock"
  else if String.eqb word "stones" then "stone"
  else word.

Definition preprocess_text : option string -> string :=
  preprocess_text lemmatize stop_words.

End Dictionaries.

(** ** Exceptions

    Two library checks can end a run of the embedded code, both with a
    [ValueError]: scikit-learn's vocabulary building and folium's
    validation of a location. *)
Inductive exn : Type :=
| ValueError (msg : string).

Inductive result (A : Type) : Type :=
| Ok (a : A)
| Raise (e : exn).

Arguments Ok {A} a.
Arguments Raise {A} e.

Definition empty_vocabulary : exn :=
  ValueError "empty vocabulary; perhaps the documents only contain stop words".

Definition nan_location : exn :=
  ValueError "Location values cannot contain NaNs.".

(** ** numpy

    [scores.argsort()] is numpy's; its contract is an ascending permutation
    of the indices, and its default kind does not promise an order among
    equal scores.  [get_top_tfidf_terms] takes it as a parameter.
    [insertion_argsort] is one function that meets the contract, a stable
    one; it serves to run the embedding on concrete text and says nothing
    about the order in which numpy leaves equal scores. *)
Definition score_at (scores : list Q) (i : nat) : Q := nth i scores 0%Q.

(** One step of an insertion sort: index [i] moves in front of the indices
    whose score is strictly greater. *)
Fixpoint insert_index (scores : list Q) (i : nat) (sorted : list nat)
  : list nat :=
  match sorted with
  | [] => [i]
  | j :: rest =>
      if Qle_bool (score_at scores j) (score_at scores i)
      then j :: insert_index scores i rest
      else i :: sorted
  end.

(** The insertion sort as a whole: the indices in ascending order of score,
    equal scores in index order. *)
Definition insertion_argsort (scores : list Q) : list nat :=
  fold_left (fun sorted i => insert_index scores i sorted)
            (seq 0 (List.length scores)) [].

(** ** [get_top_tfidf_terms]

    clustering-test-2.py lines 49-55, clustering-test.py lines 47-53. *)
Section Tfidf.

(** scikit-learn's built-in English stop-word list, [stop_words='english'] *)
Variable sklearn_stop_words : string -> bool.

(** The TF-IDF weighting followed by [mean(axis=0)]: the mean weight of a
    term is computed from the corpus count matrix and the term's own column
    of counts.  Scores are binary floating-point numbers, hence rationals. *)
Variable tfidf_mean : list (list nat) -> list nat -> Q.

(** [numpy.ndarray.argsort] *)
Variable argsort : list Q -> list nat.

(** Maximal runs of word characters, left to right. *)
Fixpoint word_runs_from (cur s : string) : list string :=
  match s with
  | EmptyString => PyStr.flush cur
  | String c s' =>
      if PyStr.is_word c
      then word_runs_from (cur ++ String c EmptyString) s'
      else PyStr.flush cur ++ word_runs_from EmptyString s'
  end.

(** The default [token_pattern], [\b\w\w+\b]: runs of two or more. *)
Definition tokenize (doc : string) : list string :=
  filter (fun t => Nat.leb 2 (String.length t))
         (word_runs_from EmptyString doc).

(** The analyzer: lowercase, tokenize, drop stop words. *)
Definition analyze (doc : string) : list string :=
  filter (fun t => negb (sklearn_stop_words t)) (tokenize (PyStr.lower doc)).

Fixpoint insert_term (t : string) (terms : list string) : list string :=
  match terms with
  | [] => [t]
  | u :: rest =>
      match String.compare t u with
      | Eq => terms
      | Lt => t :: terms
      | Gt => u :: insert_term t rest
      end
  end.

(** The fitted vocabulary in feature order: the distinct terms, sorted. *)
Definition vocabulary (texts : list string) : list string :=
  fold_left (fun terms t => insert_term t terms)
            (List.concat (map analyze texts)) [].

Definition count (t : string) (tokens : list string) : nat :=
  List.length (filter (String.eqb t) tokens).

(** The document-term count matrix, one row per text. *)
Definition count_matrix (texts : list string) : list (list nat) :=
  map (fun doc => map (fun t => count t (analyze doc)) (vocabulary texts))
      texts.

Definition column (j : nat) (X : list (list nat)) : list nat :=
  map (fun row => nth j row 0%nat) X.

Record fitted : Type := {
  feature_names : list string;
  scores : list Q
}.

(** [fit_transform], [get_feature_names_out] and the column means. *)
Definition fit_transform (texts : list string) : result fitted :=
  match vocabulary texts with
  | [] => Raise empty_vocabulary
  | names =>
      let X := count_matrix texts in
      Ok {| feature_names := names;
            scores := map (fun j => tfidf_mean X (column j X))
                          (seq 0 (List.length names)) |}
  end.

Definition get_top_tfidf_terms (texts : list string) (n : nat)
  : result (list string) :=
  match fit_transform texts with
  | Raise e => Raise e
  | Ok tfidf =>
      let top_indices := firstn n (rev (argsort (scores tfidf))) in
      Ok (map (fun i => nth i (feature_names tfidf) "") top_indices)
  end.

(** The mean score of a term of the corpus. *)
Definition term_score (texts : list string) (t : string) : Q :=
  let X := count_matrix texts in
  tfidf_mean X (map (fun doc => count t (analyze doc)) texts).

End Tfidf.

Module SklearnStopWords.

(** A fragment of scikit-learn's [ENGLISH_STOP_WORDS]. *)
Definition fragment : list string :=
  ["a"; "about"; "above"; "after"; "all"; "also"; "an"; "and"; "any"; "are";
   "as"; "at"; "be"; "but"; "by"; "can"; "for"; "from"; "has"; "have"; "he";
   "her"; "his"; "i"; "if"; "in"; "is"; "it"; "its"; "me"; "my"; "no"; "not";
   "of"; "on"; "or"; "our"; "she"; "so"; "than"; "that"; "the"; "their";
   "them"; "then"; "there"; "these"; "they"; "this"; "to"; "up"; "us"; "was";
   "we"; "were"; "what"; "when"; "where"; "which"; "who"; "will"; "with";
   "you"; "your"].

Definition stop_words (t : string) : bool :=
  existsb (String.eqb t) fragment.

End SklearnStopWords.

(** ** The data frame

    A row of [df] once the columns [cleaned_description] and [cluster] have
    been added.  A coordinate cell of the CSV is a float: finite, infinite, or
    NaN (which is also what pandas stores for a missing cell).  A finite
    float is embedded as the rational it is; the two zeros are not told
    apart. *)
Inductive coordinate : Type :=
| Finite (q : Q)
| Infinite (positive : bool)
| NaN.

Definition is_nan (c : coordinate) : bool :=
  match c with
  | NaN => true
  | _ => false
  end.

(** ** binary64 arithmetic

    The floats are IEEE 754 binary64 numbers: 53 significant bits, exponents
    of the last bit from -1074 to 971.  [round] is the rounding every
    operation ends with: to the nearest binary64, halfway to the one with
    the even significand, and to an infinity beyond the largest finite
    number. *)
Module Binary64.

(** The integer nearest to [n / d], for [d] positive; halfway, the even
    one. *)
Definition nearest_even (n d : Z) : Z :=
  let m := (n / d)%Z in
  match (2 * (n mod d) ?= d)%Z with
  | Lt => m
  | Gt => (m + 1)%Z
  | Eq => if Z.even m then m else (m + 1)%Z
  end.

(** The exponent [l] with [2^l <= n / d < 2^(l+1)], for [n] and [d]
    positive. *)
Definition floor_log2 (n d : Z) : Z :=
  let l := (Z.log2 n - Z.log2 d)%Z in
  if (if Z.leb 0 l then Z.leb (d * 2 ^ l) n else Z.leb d (n * 2 ^ (- l)))
  then l else (l - 1)%Z.

(** The binary64 magnitude nearest to [n / d]: a multiple of [2^e], where
    [e] leaves 53 bits above it and is at least -1074; [None] when the
    result is beyond the largest finite number. *)
Definition magnitude (n d : Z) : option Q :=
  let e := Z.max (floor_log2 n d - 52) (-1074) in
  if Z.ltb e 0
  then Some (Qred (Qmake (nearest_even (n * 2 ^ (- e)) d)
                         (Z.to_pos (2 ^ (- e)))))
  else
    let v := (nearest_even n (d * 2 ^ e) * 2 ^ e)%Z in
    if Z.leb (2 ^ 1024) v then None else Some (inject_Z v).

Definition round (q : Q) : coordinate :=
  let q := Qred q in
  match Qnum q with
  | Z0 => Finite 0
  | Zpos n =>
      match magnitude (Zpos n) (Zpos (Qden q)) with
      | Some v => Finite v
      | None => Infinite true
      end
  | Zneg n =>
      match magnitude (Zpos n) (Zpos (Qden q)) with
      | Some v => Finite (Qopp v)
      | None => Infinite false
      end
  end.

(** [a + b] *)
Definition add (a b : coordinate) : coordinate :=
  match a, b with
  | NaN, _ => NaN
  | _, NaN => NaN
  | Infinite p, Infinite p' => if Bool.eqb p p' then Infinite p else NaN
  | Infinite p, Finite _ => Infinite p
  | Finite _, Infinite p => Infinite p
  | Finite x, Finite y => round (x + y)
  end.

(** [total / count], for a positive count of cells. *)
Definition divide (total : coordinate) (count : nat) : coordinate :=
  match total with
  | Finite x => round (x / inject_Z (Z.of_nat count))
  | other => other
  end.

(** The cells that are not NaN added up from left to right, starting from
    zero: the summation of a plain loop. *)
Definition sequential_sum (cells : list coordinate) : coordinate :=
  fold_left add (filter (fun c => negb (is_nan c)) cells) (Finite 0).

End Binary64.

Record row : Type := {
  id : string;
  description : option string;
  latitude : coordinate;
  longitude : coordinate;
  cleaned_description : string;
  cluster : Z
}.

Definition dataframe : Type := list row.

(** A Python [dict] keyed by cluster id, in insertion order. *)
Section Dict.
Context {V : Type}.

Definition dict : Type := list (Z * V).

(** [d[k] = v] *)
Fixpoint dict_set (k : Z) (v : V) (d : dict) : dict :=
  match d with
  | [] => [(k, v)]
  | (k', v') :: d' =>
      if Z.eqb k' k then (k, v) :: d' else (k', v') :: dict_set k v d'
  end.

Fixpoint dict_lookup (k : Z) (d : dict) : option V :=
  match d with
  | [] => None
  | (k', v') :: d' => if Z.eqb k' k then Some v' else dict_lookup k d'
  end.

(** [d.get(k, default)] *)
Definition dict_get (k : Z) (default : V) (d : dict) : V :=
  match dict_lookup k d with
  | Some v => v
  | None => default
  end.
End Dict.

Arguments dict V : clear implicits.

Fixpoint insert_id (x : Z) (ids : list Z) : list Z :=
  match ids with
  | [] => [x]
  | y :: rest => if Z.leb x y then x :: ids else y :: insert_id x rest
  end.

(** [sorted(...)] on cluster ids. *)
Definition sorted (ids : list Z) : list Z := fold_right insert_id [] ids.

(** [Series.unique()]: the distinct values in order of first appearance. *)
Fixpoint unique (values : list Z) : list Z :=
  match values with
  | [] => []
  | v :: rest => v :: filter (fun w => negb (Z.eqb w v)) (unique rest)
  end.

(** [df[df['cluster'] == cluster_id]['cleaned_description']] *)
Definition cluster_texts (df : dataframe) (cluster_id : Z) : list string :=
  map cleaned_description
      (filter (fun r => Z.eqb (cluster r) cluster_id) df).

(** How an f-string renders a cluster id. *)
Definition str_of_id (z : Z) : string := NilZero.string_of_int (Z.to_int z).

(** How an f-string renders a description cell: a missing one is a NaN. *)
Definition str_of_description (d : option string) : string :=
  match d with
  | Some s => s
  | None => "nan"
  end.

Definition newline : string := String (ascii_of_nat 10) EmptyString.


(** [Series.mean()] with its default [skipna=True]: the float sum of the
    cells that are not NaN, divided by how many they are; NaN when there is
    none.  The sum is the library's ([series_sum], numpy's or bottleneck's
    summation, applied to the column): in which order the cells are added,
    and so how their sum is rounded, is not the scripts' doing. *)
Section Series.

Variable series_sum : list coordinate -> coordinate.

Definition mean (cells : list coordinate) : coordinate :=
  match List.length (filter (fun c => negb (is_nan c)) cells) with
  | O => NaN
  | count => Binary64.divide (series_sum cells) count
  end.

End Series.

(** The arguments of a [folium.CircleMarker], and the map with the markers
    added to it. *)
Record marker : Type := {
  location : coordinate * coordinate;
  radius : Z;
  color : string;
  fill : bool;
  fill_color : string;
  popup : string
}.

Record folium_map : Type := {
  map_location : coordinate * coordinate;
  zoom_start : Z;
  markers : list marker
}.

(** folium's [validate_location], which [folium.Map] and
    [folium.CircleMarker] run on the [location] they are given: a NaN is
    refused. *)
Definition validate_location (location : coordinate * coordinate)
  : result (coordinate * coordinate) :=
  if (is_nan (fst location) || is_nan (snd location))%bool
  then Raise nan_location
  else Ok location.

(** [for _, row in dataframe.iterrows(): ...
    folium.CircleMarker(...).add_to(base_map)]: the rows in order, each
    marker validated by folium before it is added; [arguments] are the
    arguments a script computes for a row. *)
Fixpoint add_markers (arguments : row -> marker) (rows : list row)
  (added : list marker) : result (list marker) :=
  match rows with
  | [] => Ok added
  | r :: rows' =>
      match validate_location (location (arguments r)) with
      | Raise e => Raise e
      | Ok _ => add_markers arguments rows' (added ++ [arguments r])
      end
  end.

(** A row of the CSV file as [pd.read_csv] loads it. *)
Record csv_row : Type := {
  csv_id : string;
  csv_description : option string;
  csv_latitude : coordinate;
  csv_longitude : coordinate
}.

(** [df] with the two derived columns; pandas requires a new column to be as
    long as the frame. *)
Definition with_columns (rows : list csv_row) (cleaned : list string)
  (labels : list Z) : dataframe :=
  map (fun '(r, (text, label)) =>
         {| id := csv_id r;
            description := csv_description r;
            latitude := csv_latitude r;
            longitude := csv_longitude r;
            cleaned_description := text;
            cluster := label |})
      (combine rows (combine cleaned labels)).

(** What a script does, in order, before it builds the map: the call to the
    sentence encoder, the call to the clusterer, and the lines it prints. *)
Inductive event : Type :=
| Encode (texts : list string)
| FitPredict (points : nat)
| Print (line : string).

(** ** clustering-test-2.py *)
Module ClusteringTest2.
Section Script.

Variable lemmatize : string -> string.
Variable stop_words : string -> bool.
Variable sklearn_stop_words : string -> bool.
Variable tfidf_mean : list (list nat) -> list nat -> Q.
Variable argsort : list Q -> list nat.
(** [SentenceTransformer.encode] and [HDBSCAN.fit_predict] *)
Variable vector : Type.
Variable encode : list string -> list vector.
Variable fit_predict : list vector -> list Z.
(** The summation behind [Series.mean] *)
Variable series_sum : list coordinate -> coordinate.

Definition report_line (cluster_id : Z) (top_terms : list string)
  : string :=
  "Cluster " ++ str_of_id cluster_id ++ " => " ++ PyStr.join ", " top_terms.

(** Lines 59-65: the body of the loop over the remaining cluster ids, with
    the dictionary and the lines printed so far. *)
Fixpoint analysis_loop (df : dataframe) (ids : list Z)
  (cluster_terms : dict (list string)) (printed : list string)
  : list string * result (dict (list string)) :=
  match ids with
  | [] => (printed, Ok cluster_terms)
  | cluster_id :: ids' =>
      let texts := cluster_texts df cluster_id in
      if Nat.eqb (List.length texts) 0
      then analysis_loop df ids' cluster_terms printed
      else
        match get_top_tfidf_terms sklearn_stop_words tfidf_mean
                                  argsort texts 10 with
        | Raise e => (printed, Raise e)
        | Ok top_terms =>
            analysis_loop df ids'
              (dict_set cluster_id top_terms cluster_terms)
              (printed ++ [report_line cluster_id top_terms])
        end
  end.

(** Lines 57-65. *)
Definition cluster_analysis (df : dataframe)
  : list string * result (dict (list string)) :=
  analysis_loop df (sorted (unique (map cluster df))) []
                ["Cluster Analysis:"].

Definition color_palette : list string :=
  ["blue"; "green"; "red"; "orange"; "purple";
   "darkred"; "lightblue"; "cadetblue"; "pink"; "black"].

(** Lines 85-91: [for i, c_id in enumerate(unique_clusters)], from [i]. *)
Fixpoint color_loop (i : nat) (ids : list Z) (cluster_color_map : dict string)
  : dict string :=
  match ids with
  | [] => cluster_color_map
  | c_id :: ids' =>
      color_loop (S i) ids'
        (if Z.eqb c_id (-1)
         then dict_set c_id "gray" cluster_color_map
         else dict_set c_id
                (nth (i mod List.length color_palette) color_palette "")
                cluster_color_map)
  end.

Definition cluster_color_map (df : dataframe) : dict string :=
  color_loop 0 (sorted (unique (map cluster df))) [].

Definition indent : string := "        ".

Definition popup_text (c_id : Z) (terms : list string)
  (description : option string) : string :=
  newline ++ indent ++ "<b>Cluster:</b> " ++ str_of_id c_id ++ "<br>"
  ++ newline ++ indent ++ "<b>Top Terms:</b> " ++ PyStr.join ", " terms
  ++ "<br>"
  ++ newline ++ indent ++ "<b>Description:</b> "
  ++ str_of_description description
  ++ newline ++ indent.

(** Lines 94-109, one row: the arguments of [folium.CircleMarker]. *)
Definition circle_marker (colors : dict string)
  (cluster_terms : dict (list string)) (r : row) : marker :=
  let c_id := cluster r in
  let color := dict_get c_id "gray" colors in
  {| location := (latitude r, longitude r);
     radius := 5;
     color := color;
     fill := true;
     fill_color := color;
     popup := popup_text c_id (dict_get c_id [] cluster_terms)
                         (description r) |}.

(** Lines 68-111; [cluster_terms] is the module-level dictionary.  The map
    is created first, then the markers are added row by row; folium
    validates the centre and each marker's location. *)
Definition generate_cluster_map (cluster_terms : dict (list string))
  (df : dataframe) : result folium_map :=
  match validate_location (mean series_sum (map latitude df),
                           mean series_sum (map longitude df)) with
  | Raise e => Raise e
  | Ok center =>
      match add_markers (circle_marker (cluster_color_map df) cluster_terms)
                        df [] with
      | Raise e => Raise e
      | Ok added =>
          Ok {| map_location := center; zoom_start := 5; markers := added |}
      end
  end.

(** Lines 30-46: the frame after steps 1 to 4. *)
Definition cleaned (rows : list csv_row) : list string :=
  map (fun r => preprocess_text lemmatize stop_words (csv_description r))
      rows.

Definition clustered (rows : list csv_row) : dataframe :=
  with_columns rows (cleaned rows) (fit_predict (encode (cleaned rows))).

(** The script on the loaded rows, up to the point where the map is built:
    what it did on the way, and either the exception that ended it or the
    map (which it then saves). *)
Definition run (rows : list csv_row) : list event * result folium_map :=
  let texts := cleaned rows in
  let embeddings := encode texts in
  let df := clustered rows in
  let before := [Encode texts; FitPredict (List.length embeddings)] in
  match cluster_analysis df with
  | (printed, Raise e) => ((before ++ map Print printed)%list, Raise e)
  | (printed, Ok cluster_terms) =>
      ((before ++ map Print printed)%list,
       generate_cluster_map cluster_terms df)
  end.

End Script.
End ClusteringTest2.

(** ** clustering-test.py

    The earlier script: same [preprocess_text] and [get_top_tfidf_terms];
    the loop runs over [unique()] as it comes and the colours are a fixed
    table. *)
Module ClusteringTest.
Section Script.

Variable lemmatize : string -> string.
Variable stop_words : string -> bool.
Variable sklearn_stop_words : string -> bool.
Variable tfidf_mean : list (list nat) -> list nat -> Q.
Variable argsort : list Q -> list nat.
(** [SentenceTransformer.encode], and UMAP followed by [DBSCAN.fit_predict] *)
Variable vector : Type.
Variable encode : list string -> list vector.
Variable fit_predict : list vector -> list Z.
(** The summation behind [Series.mean] *)
Variable series_sum : list coordinate -> coordinate.

Definition report_line (cluster_id : Z) (top_terms : list string)
  : string :=
  "Cluster " ++ str_of_id cluster_id ++ ": " ++ PyStr.join ", " top_terms.

(** Lines 57-61. *)
Fixpoint analysis_loop (df : dataframe) (ids : list Z)
  (cluster_terms : dict (list string)) (printed : list string)
  : list string * result (dict (list string)) :=
  match ids with
  | [] => (printed, Ok cluster_terms)
  | cluster_id :: ids' =>
      let texts := cluster_texts df cluster_id in
      match get_top_tfidf_terms sklearn_stop_words tfidf_mean
                                argsort texts 10 with
      | Raise e => (printed, Raise e)
      | Ok top_terms =>
          analysis_loop df ids'
            (dict_set cluster_id top_terms cluster_terms)
            (printed ++ [report_line cluster_id top_terms])
      end
  end.

Definition cluster_analysis (df : dataframe)
  : list string * result (dict (list string)) :=
  analysis_loop df (unique (map cluster df)) [] ["Cluster analysis:"].

(** Lines 71-80. *)
Definition colors : dict string :=
  [((-1)%Z, "gray"); (0%Z, "blue"); (1%Z, "green"); (2%Z, "red");
   (3%Z, "orange"); (4%Z, "purple"); (5%Z, "darkred"); (6%Z, "lightblue")].

Definition popup_text (cluster_id : Z) (terms : list string)
  (description : option string) : string :=
  newline ++ ClusteringTest2.indent ++ "<b>Cluster:</b> "
  ++ str_of_id cluster_id ++ "<br>"
  ++ newline ++ ClusteringTest2.indent ++ "<b>Top Terms:</b> "
  ++ PyStr.join ", " terms ++ "<br>"
  ++ newline ++ ClusteringTest2.indent ++ "<b>Description:</b> "
  ++ str_of_description description
  ++ newline ++ ClusteringTest2.indent.

Definition circle_marker (cluster_terms : dict (list string)) (r : row)
  : marker :=
  let cluster_id := cluster r in
  let color := dict_get cluster_id "gray" colors in
  {| location := (latitude r, longitude r);
     radius := 5;
     color := color;
     fill := true;
     fill_color := color;
     popup := popup_text cluster_id (dict_get cluster_id [] cluster_terms)
                         (description r) |}.

(** Lines 64-102. *)
Definition generate_cluster_map (cluster_terms : dict (list string))
  (df : dataframe) : result folium_map :=
  match validate_location (mean series_sum (map latitude df),
                           mean series_sum (map longitude df)) with
  | Raise e => Raise e
  | Ok center =>
      match add_markers (circle_marker cluster_terms) df [] with
      | Raise e => Raise e
      | Ok added =>
          Ok {| map_location := center; zoom_start := 5; markers := added |}
      end
  end.

Definition cleaned (rows : list csv_row) : list string :=
  map (fun r => preprocess_text lemmatize stop_words (csv_description r))
      rows.

Definition clustered (rows : list csv_row) : dataframe :=
  with_columns rows (cleaned rows) (fit_predict (encode (cleaned rows))).

Definition run (rows : list csv_row) : list event * result folium_map :=
  let texts := cleaned rows in
  let embeddings := encode texts in
  let df := clustered rows in
  let before := [Encode texts; FitPredict (List.length embeddings)] in
  match cluster_analysis df with
  | (printed, Raise e) => ((before ++ map Print printed)%list, Raise e)
  | (printed, Ok cluster_terms) =>
      ((before ++ map Print printed)%list,
       generate_cluster_map cluster_terms df)
  end.

End Script.
End ClusteringTest.

(** ** Predicates of the statements *)

(** A word character that [str.lower] leaves alone. *)
Definition clean_char (c : ascii) : bool :=
  (PyStr.is_word c && negb (PyStr.isupper c))%bool.

(** A non-empty word of such characters: what [preprocess_text] hands to the
    lemmatizer. *)
Definition clean_word (w : string) : bool :=
  (PyStr.nonempty w && PyStr.all_chars clean_char w)%bool.

(** The lemma of [w] is again a clean word, is not a stop word and is its own
    lemma. *)
Definition stable_lemma (lemmatize : string -> string)
  (stop_words : string -> bool) (w : string) : bool :=
  let l := lemmatize w in
  (clean_word l && negb (stop_words l) && String.eqb (lemmatize l) l)%bool.

(** A clean character or the separating space. *)
Definition clean_or_space (c : ascii) : bool :=
  (clean_char c || Ascii.eqb c " ")%bool.

(** A lowercase alphanumeric character or the separating space. *)
Definition lowercase_alnum_or_space (c : ascii) : bool :=
  ((PyStr.isalnum c && negb (PyStr.isupper c)) || Ascii.eqb c " ")%bool.

(** Ascending by score; among equal scores, ascending by index. *)
Definition before (scores : list Q) (i j : nat) : Prop :=
  (score_at scores i < score_at scores j)%Q
  \/ ((score_at scores i == score_at scores j)%Q /\ (i < j)%nat).

(** The contract of [argsort] on an array of scores: every index once, by
    ascending score. *)
Definition ascending_argsort (argsort : list Q -> list nat)
  (scores : list Q) : Prop :=
  Permutation (argsort scores) (seq 0 (List.length scores))
  /\ StronglySorted
       (fun i j => (score_at scores i <= score_at scores j)%Q)
       (argsort scores).

(** Strictly earlier in lexicographic order. *)
Definition str_before (a b : string) : Prop := String.compare a b = Lt.

(** Descending by score. *)
Definition scores_no_lower (score : string -> Q) (t u : string) : Prop :=
  (score u <= score t)%Q.

(** [terms] are the [n] best terms of the texts: at least one, [n] of them
    or the whole vocabulary if it is smaller, each a term of the
    vocabulary, none twice, in descending order of mean score, and no term
    left out scores higher than one that is in. *)
Definition top_ranking (sklearn_stop_words : string -> bool)
  (tfidf_mean : list (list nat) -> list nat -> Q) (texts : list string)
  (n : nat) (terms : list string) : Prop :=
  terms <> []
  /\ List.length terms
     = Nat.min n (List.length (vocabulary sklearn_stop_words texts))
  /\ incl terms (vocabulary sklearn_stop_words texts)
  /\ NoDup terms
  /\ StronglySorted
       (scores_no_lower (term_score sklearn_stop_words tfidf_mean texts))
       terms
  /\ (forall t u,
         In t terms ->
         In u (vocabulary sklearn_stop_words texts) ->
         ~ In u terms ->
         (term_score sklearn_stop_words tfidf_mean texts u
          <= term_score sklearn_stop_words tfidf_mean texts t)%Q).

(** The scores by feature index are the scores of the feature names. *)
Definition scores_of (sklearn_stop_words : string -> bool)
  (tfidf_mean : list (list nat) -> list nat -> Q) (texts : list string)
  : list Q :=
  map (fun j => term_score sklearn_stop_words tfidf_mean texts
                           (nth j (vocabulary sklearn_stop_words texts) ""))
      (seq 0 (List.length (vocabulary sklearn_stop_words texts))).

(** The indices [get_top_tfidf_terms] selects. *)
Definition top_indices (sklearn_stop_words : string -> bool)
  (tfidf_mean : list (list nat) -> list nat -> Q)
  (argsort : list Q -> list nat) (texts : list string) (n : nat)
  : list nat :=
  firstn n (rev (argsort (scores_of sklearn_stop_words tfidf_mean texts))).

(** Every cluster of the frame leaves TF-IDF at least one term. *)
Definition labelable (sklearn_stop_words : string -> bool) (df : dataframe)
  : bool :=
  forallb (fun c => match vocabulary sklearn_stop_words (cluster_texts df c)
                    with
                    | [] => false
                    | _ => true
                    end)
          (unique (map cluster df)).

(** The top terms of a cluster, when TF-IDF returns them. *)
Definition top_terms_of (sklearn_stop_words : string -> bool)
  (tfidf_mean : list (list nat) -> list nat -> Q)
  (argsort : list Q -> list nat) (df : dataframe) (c : Z) : list string :=
  match get_top_tfidf_terms sklearn_stop_words tfidf_mean argsort
                            (cluster_texts df c) 10 with
  | Ok top_terms => top_terms
  | Raise _ => []
  end.

(** The colour clustering-test-2.py gives the id met at position [i] of the
    sorted distinct ids. *)
Definition palette_color (i : nat) (c_id : Z) : string :=
  if Z.eqb c_id (-1) then "gray"
  else nth (i mod List.length ClusteringTest2.color_palette)
           ClusteringTest2.color_palette "".

(** The colour assignment as the specification words it: -1 is gray; the
    other ids, sorted ascending, take the palette colours in that order,
    cycling. *)
Definition assign_colors (palette : list string) (cluster_ids : list Z)
  : dict string :=
  let others :=
    sorted (filter (fun c => negb (Z.eqb c (-1))) (unique cluster_ids)) in
  ((if existsb (Z.eqb (-1)) cluster_ids then [((-1)%Z, "gray")] else [])
   ++ map (fun '(k, c) => (c, nth (k mod List.length palette) palette ""))
          (combine (seq 0 (List.length others)) others))%list.

(** The fixed table of clustering-test.py, read as a function. *)
Definition table_color (c : Z) : string :=
  if (Z.leb (-1) c && Z.leb c 6)%bool
  then nth (Z.to_nat (c + 1))
           ["gray"; "blue"; "green"; "red"; "orange"; "purple"; "darkred";
            "lightblue"] ""
  else "gray".






(** The row has a NaN, which is what a missing cell is read as, for
    latitude or longitude. *)
Definition without_location (r : csv_row) : bool :=
  (is_nan (csv_latitude r) || is_nan (csv_longitude r))%bool.

(** * Sample frames *)
Module Samples.

Definition csv (i : string) (d : option string) (lat lon : Q) : csv_row :=
  {| csv_id := i; csv_description := d;
     csv_latitude := Finite lat; csv_longitude := Finite lon |}.

Definition frame (rows : list csv_row) (labels : list Z) : dataframe :=
  with_columns rows
    (map (fun r => Dictionaries.preprocess_text (csv_description r)) rows)
    labels.

(** Two described erratics in one cluster and an undescribed one left as
    noise. *)
Definition undescribed_noise : dataframe :=
  frame [csv "1" (Some "Granite boulder.") 45 (-75);
         csv "2" (Some "The granite boulders") 46 (-76);
         csv "3" None 47 (-77)]
        [0%Z; 0%Z; (-1)%Z].

(** Two clusters, the higher id met first. *)
Definition two_clusters : dataframe :=
  frame [csv "1" (Some "Granite.") 45 (-75);
         csv "2" (Some "A sandstone") 46 (-76)]
        [1%Z; 0%Z].

(** One cluster met first and a noise point after it, as DBSCAN numbers
    them. *)
Definition cluster_then_noise : dataframe :=
  frame [csv "1" (Some "Granite.") 45 (-75);
         csv "2" (Some "The granite") 46 (-76);
         csv "3" (Some "A sandstone") 47 (-77)]
        [0%Z; 0%Z; (-1)%Z].

(** A noise point and one cluster. *)
Definition noise_and_cluster : dataframe :=
  frame [csv "1" (Some "Quartzite") 10 20;
         csv "2" (Some "Granite boulder.") 30 40;
         csv "3" (Some "The granite boulders") 30 40]
        [(-1)%Z; 0%Z; 0%Z].



End Samples.

(** Two rows, the first without a latitude. *)
Definition missing_latitude : list csv_row :=
  [{| csv_id := "1"; csv_description := Some "Granite.";
      csv_latitude := NaN; csv_longitude := Finite (-75) |};
   Samples.csv "2" (Some "The granite") 46 (-76)].

(** The rows of the render scenario, before they are clustered. *)
Definition two_granites : list csv_row :=
  [Samples.csv "1" (Some "Granite.") 10 20;
   Samples.csv "2" (Some "The granite") 30 40].

(** ** Predicates of the further statements *)

(** The cluster leaves TF-IDF at least one term. *)
Definition has_terms (sklearn_stop_words : string -> bool) (df : dataframe)
  (c : Z) : bool :=
  match vocabulary sklearn_stop_words (cluster_texts df c) with
  | [] => false
  | _ => true
  end.

(** The ids a loop gets through before the first one without a term. *)
Fixpoint labelled_prefix (sklearn_stop_words : string -> bool)
  (df : dataframe) (ids : list Z) : list Z :=
  match ids with
  | [] => []
  | c :: ids' =>
      if has_terms sklearn_stop_words df c
      then c :: labelled_prefix sklearn_stop_words df ids'
      else []
  end.

(** The position of the first occurrence of [c] in [ids]. *)
Fixpoint position_of (c : Z) (ids : list Z) : nat :=
  match ids with
  | [] => 0
  | d :: ids' => if Z.eqb d c then 0 else S (position_of c ids')
  end.

(** Not one of the regular ids 0..6 of the fixed colour table. *)
Definition off_table (c : Z) : bool := negb (Z.leb 0 c && Z.leb c 6).

(** No word of the description survives the cleaning. *)
Definition no_survivor (stop_words : string -> bool) (d : option string)
  : bool :=
  match d with
  | None => true
  | Some text =>
      match surviving_words stop_words text with
      | [] => true
      | _ => false
      end
  end.

(** A token as scikit-learn's analyzer yields it: two or more word
    characters, none upper case. *)
Definition is_token (t : string) : bool :=
  (Nat.leb 2 (String.length t) && PyStr.all_chars clean_char t)%bool.

(** Stand-ins for the encoder and the clusterer that keep one entry per
    input, as both promise: every text gets the same vector, every point the
    label 0. *)
Module StandIns.

Definition encode (texts : list string) : list unit :=
  map (fun _ => tt) texts.

Definition fit_predict (embeddings : list unit) : list Z :=
  map (fun _ => 0%Z) embeddings.

End StandIns.

(** Two rows whose descriptions keep no word: one is missing, the other
    holds stop words and punctuation only. *)
Definition rows_without_words : list csv_row :=
  [Samples.csv "1" None 45 (-75);
   Samples.csv "2" (Some "The, of... it!") 46 (-76)].

(** Eleven clusters of one erratic each, ids 0 to 10, no noise. *)
Definition eleven_clusters : dataframe :=
  map (fun c => {| id := str_of_id c;
                   description := Some "Granite.";
                   latitude := Finite 45;
                   longitude := Finite (-75);
                   cleaned_description := "granite";
                   cluster := c |})
      [0; 1; 2; 3; 4; 5; 6; 7; 8; 9; 10]%Z.

(** * Facts about Python text *)
Module PyStrFacts.
Import PyStr.

Ltac by_cases_on_char c :=
  destruct c as [[] [] [] [] [] [] [] []]; vm_compute; congruence.

Lemma isupper_lower_char (c : ascii) : isupper (lower_char c) = false.
Proof. by_cases_on_char c. Qed.

Lemma word_not_space (c : ascii) : is_word c = true -> isspace c = false.
Proof. by_cases_on_char c. Qed.

Lemma lower_char_fixed (c : ascii) : isupper c = false -> lower_char c = c.
Proof. unfold lower_char. intros ->. reflexivity. Qed.

Lemma all_chars_app (p : ascii -> bool) (s t : string) :
  all_chars p (s ++ t) = (all_chars p s && all_chars p t)%bool.
Proof.
  induction s as [|c s IH]; simpl; [reflexivity|].
  rewrite IH. apply andb_assoc.
Qed.

Lemma all_chars_impl (p q : ascii -> bool) (s : string) :
  (forall c, p c = true -> q c = true) ->
  all_chars p s = true -> all_chars q s = true.
Proof.
  intros Hpq. induction s as [|c s IH]; simpl; [reflexivity|].
  rewrite !andb_true_iff. intros [Hc Hs]. auto.
Qed.

Lemma all_chars_and (p q : ascii -> bool) (s : string) :
  all_chars p s = true -> all_chars q s = true ->
  all_chars (fun c => (p c && q c)%bool) s = true.
Proof.
  induction s as [|c s IH]; simpl; [reflexivity|].
  rewrite !andb_true_iff. intros [Hc Hs] [Hc' Hs']. auto.
Qed.

Lemma append_empty_r (s : string) : s ++ "" = s.
Proof. induction s as [|c s IH]; simpl; congruence. Qed.

Lemma append_assoc (s t u : string) : (s ++ t) ++ u = s ++ (t ++ u).
Proof. induction s as [|c s IH]; simpl; congruence. Qed.

Lemma nonempty_snoc (cur : string) (c : ascii) :
  nonempty (cur ++ String c "") = true.
Proof. destruct cur; reflexivity. Qed.

Lemma lower_not_upper (s : string) :
  all_chars (fun c => negb (isupper c)) (lower s) = true.
Proof.
  induction s as [|c s IH]; simpl; [reflexivity|].
  rewrite isupper_lower_char, IH. reflexivity.
Qed.

Lemma lower_fixed (s : string) :
  all_chars (fun c => negb (isupper c)) s = true -> lower s = s.
Proof.
  induction s as [|c s IH]; simpl; [reflexivity|].
  rewrite andb_true_iff, negb_true_iff. intros [Hc Hs].
  rewrite lower_char_fixed, IH; auto.
Qed.

Lemma strip_punctuation_keeps (p : ascii -> bool) (s : string) :
  all_chars p s = true -> all_chars p (strip_punctuation s) = true.
Proof.
  induction s as [|c s IH]; simpl; [reflexivity|].
  rewrite andb_true_iff. intros [Hc Hs].
  destruct (is_word c || isspace c)%bool; simpl; auto.
  rewrite Hc. auto.
Qed.

Lemma strip_punctuation_class (s : string) :
  all_chars (fun c => (is_word c || isspace c)%bool) (strip_punctuation s)
  = true.
Proof.
  induction s as [|c s IH]; simpl; [reflexivity|].
  destruct (is_word c || isspace c)%bool eqn:E; simpl; auto.
  rewrite E. auto.
Qed.

Lemma strip_punctuation_fixed (s : string) :
  all_chars (fun c => (is_word c || isspace c)%bool) s = true ->
  strip_punctuation s = s.
Proof.
  induction s as [|c s IH]; simpl; [reflexivity|].
  rewrite andb_true_iff. intros [Hc Hs]. rewrite Hc, IH; auto.
Qed.

(** Every word [split] returns is non-empty, free of white space, and made of
    characters of the text. *)
Lemma split_from_words (p : ascii -> bool) (s cur : string) :
  all_chars p cur = true -> all_chars p s = true ->
  all_chars (fun c => negb (isspace c)) cur = true ->
  Forall (fun w => nonempty w = true
                   /\ all_chars (fun c => negb (isspace c)) w = true
                   /\ all_chars p w = true)
         (split_from cur s).
Proof.
  revert cur. induction s as [|c s IH]; intros cur Hcur Hs Hsp; simpl.
  - destruct cur; simpl; constructor; auto.
  - simpl in Hs. apply andb_true_iff in Hs as [Hc Hs].
    destruct (isspace c) eqn:E.
    + apply Forall_app. split.
      * destruct cur; simpl; constructor; auto.
      * apply IH; auto.
    + apply IH; auto.
      * rewrite all_chars_app. simpl. rewrite Hcur, Hc. reflexivity.
      * rewrite all_chars_app. simpl. rewrite Hsp, E. reflexivity.
Qed.

Lemma split_from_word (w s cur : string) :
  all_chars (fun c => negb (isspace c)) w = true ->
  split_from cur (w ++ s) = split_from (cur ++ w) s.
Proof.
  revert cur. induction w as [|c w IH]; intros cur Hw; simpl.
  - rewrite append_empty_r. reflexivity.
  - simpl in Hw. apply andb_true_iff in Hw as [Hc Hw].
    apply negb_true_iff in Hc. rewrite Hc, IH by assumption.
    rewrite append_assoc. reflexivity.
Qed.

(** [split] undoes [" ".join] on words that are non-empty and free of white
    space. *)
Lemma split_join (ws : list string) :
  Forall (fun w => nonempty w = true
                   /\ all_chars (fun c => negb (isspace c)) w = true) ws ->
  split (join " " ws) = ws.
Proof.
  unfold split. induction 1 as [|w ws [Hne Hw] Hws IH]; [reflexivity|].
  destruct ws as [|w' ws].
  - simpl. rewrite <- (append_empty_r w) at 1.
    rewrite split_from_word by assumption. simpl.
    destruct w; [discriminate|reflexivity].
  - change (join " " (w :: w' :: ws)) with (w ++ " " ++ join " " (w' :: ws)).
    remember (join " " (w' :: ws)) as rest eqn:Hrest.
    rewrite split_from_word by assumption. simpl.
    rewrite IH. destruct w; [discriminate|reflexivity].
Qed.

Lemma all_chars_join (p : ascii -> bool) (ws : list string) :
  p " "%char = true ->
  Forall (fun w => all_chars p w = true) ws ->
  all_chars p (join " " ws) = true.
Proof.
  intros Hsp. induction 1 as [|w ws Hw Hws IH]; [reflexivity|].
  destruct ws as [|w' ws]; [exact Hw|].
  change (join " " (w :: w' :: ws)) with (w ++ " " ++ join " " (w' :: ws)).
  rewrite all_chars_app, Hw. simpl. rewrite Hsp. exact IH.
Qed.

End PyStrFacts.

(** * [preprocess_text] *)
Section PreprocessTheory.

Variable lemmatize : string -> string.
Variable stop_words : string -> bool.

Lemma clean_char_no_space (c : ascii) :
  clean_char c = true -> PyStr.isspace c = false.
Proof.
  unfold clean_char. rewrite andb_true_iff. intros [Hw _].
  now apply PyStrFacts.word_not_space.
Qed.

(** The words handed to the lemmatizer are clean and are not stop words. *)
Lemma surviving_words_clean (text : string) :
  Forall (fun w => clean_word w = true /\ stop_words w = false)
         (surviving_words stop_words text).
Proof.
  unfold surviving_words, keep_words.
  set (s := PyStr.strip_punctuation (PyStr.lower text)).
  assert (Hs : PyStr.all_chars
                 (fun c => ((PyStr.is_word c || PyStr.isspace c)
                            && negb (PyStr.isupper c))%bool) s = true).
  { apply PyStrFacts.all_chars_and.
    - apply PyStrFacts.strip_punctuation_class.
    - apply PyStrFacts.strip_punctuation_keeps, PyStrFacts.lower_not_upper. }
  pose proof (PyStrFacts.split_from_words _ s "" eq_refl Hs eq_refl) as Hw.
  fold (PyStr.split s) in Hw. rewrite Forall_forall in Hw.
  apply Forall_forall. intros w Hin. apply filter_In in Hin as [Hin Hstop].
  apply negb_true_iff in Hstop. split; [|exact Hstop].
  destruct (Hw w Hin) as (Hne & Hsp & Hp).
  unfold clean_word. rewrite Hne. simpl.
  pose proof (PyStrFacts.all_chars_and _ _ _ Hsp Hp) as Hboth.
  revert Hboth. apply PyStrFacts.all_chars_impl. intros c.
  unfold clean_char.
  destruct (PyStr.isspace c), (PyStr.is_word c), (PyStr.isupper c);
    simpl; congruence.
Qed.

(** C8. [preprocess_text] is a total function; a null description and the
    empty description are both cleaned to the empty string. *)
Theorem preprocess_text_null_and_empty :
  preprocess_text lemmatize stop_words None = ""
  /\ preprocess_text lemmatize stop_words (Some "") = "".
Proof. split; reflexivity. Qed.

Lemma clean_word_chars (w : string) :
  clean_word w = true ->
  PyStr.nonempty w = true
  /\ PyStr.all_chars (fun c => negb (PyStr.isspace c)) w = true
  /\ PyStr.all_chars clean_or_space w = true.
Proof.
  unfold clean_word. rewrite andb_true_iff. intros [Hne Hc].
  split; [exact Hne|]. split.
  - revert Hc. apply PyStrFacts.all_chars_impl. intros c Hc.
    now rewrite (clean_char_no_space c Hc).
  - revert Hc. apply PyStrFacts.all_chars_impl. intros c Hc.
    unfold clean_or_space. now rewrite Hc.
Qed.

Lemma clean_or_space_not_upper (c : ascii) :
  clean_or_space c = true -> negb (PyStr.isupper c) = true.
Proof.
  unfold clean_or_space, clean_char.
  rewrite orb_true_iff, andb_true_iff. intros [[_ H]|H]; [exact H|].
  apply Ascii.eqb_eq in H. subst c. reflexivity.
Qed.

(** C7, amended.  With a lemmatizer that maps clean words (non-empty, made
    of word characters that [lower] leaves alone) to clean words, the
    cleaned text is made of tokens separated by single spaces: it is the
    single-space join of its tokens and splitting it gives them back; the
    tokens are the lemmas of the surviving words, each a clean word, so
    that the text holds only the separating space and word characters
    (letters, digits, the underscore) none of which is upper case, and is
    left alone by [lower]; every surviving word is clean and is not a stop
    word, the stop words being removed before the lemmatizer runs. *)
Theorem preprocess_text_shape (text : string) :
  (forall w, clean_word w = true -> clean_word (lemmatize w) = true) ->
  let output := preprocess_text lemmatize stop_words (Some text) in
  let tokens := map lemmatize (surviving_words stop_words text) in
  output = PyStr.join " " tokens
  /\ PyStr.split output = tokens
  /\ Forall (fun t => clean_word t = true) tokens
  /\ PyStr.all_chars clean_or_space output = true
  /\ PyStr.lower output = output
  /\ Forall (fun w => clean_word w = true /\ stop_words w = false)
            (surviving_words stop_words text).
Proof.
  intros Hlemma output tokens.
  assert (Htokens : Forall (fun t => clean_word t = true) tokens).
  { apply Forall_forall. intros t Ht.
    apply in_map_iff in Ht as (w & <- & Hw). apply Hlemma.
    pose proof (surviving_words_clean text) as Hs.
    rewrite Forall_forall in Hs. now apply Hs. }
  assert (Hchars : PyStr.all_chars clean_or_space output = true).
  { apply PyStrFacts.all_chars_join; [reflexivity|].
    eapply Forall_impl; [|exact Htokens]. cbv beta. intros t Ht.
    now apply clean_word_chars. }
  split; [reflexivity|]. split; [|split; [|split; [|split]]].
  - apply PyStrFacts.split_join.
    eapply Forall_impl; [|exact Htokens]. cbv beta. intros t Ht.
    apply clean_word_chars in Ht. tauto.
  - exact Htokens.
  - exact Hchars.
  - apply PyStrFacts.lower_fixed. revert Hchars.
    apply PyStrFacts.all_chars_impl, clean_or_space_not_upper.
  - apply surviving_words_clean.
Qed.

Lemma stable_lemmas_spec (ws : list string) :
  forallb (stable_lemma lemmatize stop_words) ws = true ->
  Forall (fun l => clean_word l = true /\ stop_words l = false
                   /\ lemmatize l = l)
         (map lemmatize ws).
Proof.
  rewrite forallb_forall. intros H. apply Forall_forall. intros l Hin.
  apply in_map_iff in Hin as (w & <- & Hin). specialize (H w Hin).
  unfold stable_lemma in H. cbv zeta in H.
  rewrite !andb_true_iff, negb_true_iff, String.eqb_eq in H. tauto.
Qed.

Lemma filter_all {A : Type} (p : A -> bool) (l : list A) :
  Forall (fun x => p x = true) l -> filter p l = l.
Proof.
  induction 1 as [|x l Hx Hl IH]; simpl; [reflexivity|].
  rewrite Hx, IH. reflexivity.
Qed.

Lemma map_fixed {A : Type} (f : A -> A) (l : list A) :
  Forall (fun x => f x = x) l -> map f l = l.
Proof.
  induction 1 as [|x l Hx Hl IH]; simpl; [reflexivity|].
  rewrite Hx, IH. reflexivity.
Qed.

(** Cleaning a text made of stable lemmas gives the text back. *)
Lemma preprocess_text_join_stable (ls : list string) :
  Forall (fun l => clean_word l = true /\ stop_words l = false
                   /\ lemmatize l = l) ls ->
  preprocess_text lemmatize stop_words (Some (PyStr.join " " ls))
  = PyStr.join " " ls.
Proof.
  intros H. unfold preprocess_text.
  assert (Hclean : Forall (fun l => PyStr.all_chars clean_char l = true) ls).
  { eapply Forall_impl; [|exact H]. cbv beta. intros l (Hc & _).
    unfold clean_word in Hc. apply andb_true_iff in Hc. tauto. }
  rewrite PyStrFacts.lower_fixed.
  2:{ apply PyStrFacts.all_chars_join; [reflexivity|].
      eapply Forall_impl; [|exact Hclean]. cbv beta. intros l.
      apply PyStrFacts.all_chars_impl. intros c. unfold clean_char.
      rewrite andb_true_iff. tauto. }
  rewrite PyStrFacts.strip_punctuation_fixed.
  2:{ apply PyStrFacts.all_chars_join; [reflexivity|].
      eapply Forall_impl; [|exact Hclean]. cbv beta. intros l.
      apply PyStrFacts.all_chars_impl. intros c. unfold clean_char.
      rewrite andb_true_iff. intros [-> _]. reflexivity. }
  rewrite PyStrFacts.split_join.
  2:{ eapply Forall_impl; [|exact H]. cbv beta. intros l (Hc & _).
      unfold clean_word in Hc. apply andb_true_iff in Hc as [Hne Hc].
      split; [exact Hne|]. revert Hc. apply PyStrFacts.all_chars_impl.
      intros c Hc. now rewrite (clean_char_no_space c Hc). }
  unfold keep_words. rewrite filter_all.
  2:{ eapply Forall_impl; [|exact H]. cbv beta. intros l (_ & -> & _).
      reflexivity. }
  rewrite map_fixed; [reflexivity|].
  eapply Forall_impl; [|exact H]. cbv beta. tauto.
Qed.

(** C6, amended.  Cleaning is idempotent on a text whenever the lemma of each
    of its surviving words is stable: again a clean word, not a stop word,
    and its own lemma. *)
Theorem preprocess_text_idempotent_on_stable_lemmas (text : string) :
  forallb (stable_lemma lemmatize stop_words)
          (surviving_words stop_words text) = true ->
  preprocess_text lemmatize stop_words
    (Some (preprocess_text lemmatize stop_words (Some text)))
  = preprocess_text lemmatize stop_words (Some text).
Proof.
  intros H. apply stable_lemmas_spec in H.
  change (preprocess_text lemmatize stop_words (Some text))
    with (PyStr.join " " (map lemmatize (surviving_words stop_words text))).
  now apply preprocess_text_join_stable.
Qed.

End PreprocessTheory.

Example preprocess_sample :
  Dictionaries.preprocess_text (Some "The Big  boulders, of granite!")
  = "big boulder granite".
Proof. reflexivity. Qed.

(** C6, the claim as written fails: the lemma of "cans" is "can", which is a
    stop word, so a second cleaning deletes what the first one produced. *)
Lemma preprocess_text_not_idempotent :
  Dictionaries.preprocess_text (Some "tin cans") = "tin can"
  /\ Dictionaries.preprocess_text
       (Some (Dictionaries.preprocess_text (Some "tin cans"))) = "tin".
Proof. split; reflexivity. Qed.

Lemma preprocess_text_idempotent_witness :
  forallb (stable_lemma Dictionaries.lemmatize Dictionaries.stop_words)
          (surviving_words Dictionaries.stop_words
                           "The Big  boulders, of granite!") = true
  /\ Dictionaries.preprocess_text
       (Some (Dictionaries.preprocess_text
                (Some "The Big  boulders, of granite!")))
     = Dictionaries.preprocess_text (Some "The Big  boulders, of granite!").
Proof.
  split; [reflexivity|].
  apply (preprocess_text_idempotent_on_stable_lemmas
           Dictionaries.lemmatize Dictionaries.stop_words
           "The Big  boulders, of granite!").
  reflexivity.
Defined.

Lemma dictionaries_lemmatize_clean (w : string) :
  clean_word w = true -> clean_word (Dictionaries.lemmatize w) = true.
Proof.
  intros Hw. unfold Dictionaries.lemmatize.
  repeat (match goal with
          | |- context [String.eqb w ?s] =>
              destruct (String.eqb w s); [reflexivity|]
          end).
  exact Hw.
Qed.

Lemma preprocess_text_shape_witness :
  (forall w, clean_word w = true ->
             clean_word (Dictionaries.lemmatize w) = true)
  /\ Dictionaries.preprocess_text (Some "The Big  boulders, of granite!")
     = "big boulder granite"
  /\ PyStr.split (Dictionaries.preprocess_text
                    (Some "The Big  boulders, of granite!"))
     = ["big"; "boulder"; "granite"]
  /\ PyStr.all_chars clean_or_space
       (Dictionaries.preprocess_text
          (Some "The Big  boulders, of granite!")) = true.
Proof.
  split; [exact dictionaries_lemmatize_clean|].
  destruct (preprocess_text_shape Dictionaries.lemmatize
              Dictionaries.stop_words "The Big  boulders, of granite!"
              dictionaries_lemmatize_clean)
    as (Hjoin & Hsplit & _ & Hchars & _).
  split; [exact Hjoin|]. split; [exact Hsplit|exact Hchars].
Defined.

(** C7, the claim as written fails twice: the underscore is a word character
    that survives cleaning although it is not alphanumeric, and a lemma can
    be a stop word. *)
Lemma preprocess_text_keeps_underscore_and_stop_lemma :
  Dictionaries.preprocess_text (Some "snake_case") = "snake_case"
  /\ PyStr.all_chars lowercase_alnum_or_space "snake_case" = false
  /\ Dictionaries.preprocess_text (Some "tin cans") = "tin can"
  /\ Dictionaries.stop_words "can" = true.
Proof. repeat split; reflexivity. Qed.

(** * [argsort] *)
Section ArgsortTheory.

Variable scores : list Q.

Lemma before_le (i j : nat) :
  before scores i j -> (score_at scores i <= score_at scores j)%Q.
Proof. intros [H|[H _]]; lra. Qed.

Lemma insert_index_perm (i : nat) (l : list nat) :
  Permutation (insert_index scores i l) (i :: l).
Proof.
  induction l as [|j l IH]; simpl; [reflexivity|].
  destruct (Qle_bool (score_at scores j) (score_at scores i)).
  - rewrite IH. apply perm_swap.
  - reflexivity.
Qed.

Lemma insert_index_sorted (i : nat) (l : list nat) :
  StronglySorted (before scores) l ->
  Forall (fun j => (j < i)%nat) l ->
  StronglySorted (before scores) (insert_index scores i l).
Proof.
  induction 1 as [|j l Hl IH Hj]; intros Hlt; simpl.
  - repeat constructor.
  - inversion Hlt as [|? ? Hji Hlt']; subst.
    destruct (Qle_bool (score_at scores j) (score_at scores i)) eqn:E.
    + apply Qle_bool_iff in E. constructor; [now apply IH|].
      apply Forall_forall. intros x Hx.
      apply (Permutation_in _ (insert_index_perm i l)) in Hx.
      destruct Hx as [<-|Hx].
      * destruct (Qle_lt_or_eq _ _ E) as [Hs|Hs]; [left|right]; auto.
      * rewrite Forall_forall in Hj. auto.
    + assert (Hij : (score_at scores i < score_at scores j)%Q).
      { apply Qnot_le_lt. intros H. apply Qle_bool_iff in H. congruence. }
      constructor; [now constructor|].
      constructor; [now left|].
      apply Forall_forall. intros x Hx. rewrite Forall_forall in Hj.
      left. pose proof (before_le _ _ (Hj x Hx)). lra.
Qed.

Lemma argsort_from (k a : nat) (acc : list nat) :
  StronglySorted (before scores) acc ->
  Forall (fun j => (j < a)%nat) acc ->
  let sorted := fold_left (fun sorted i => insert_index scores i sorted)
                          (seq a k) acc in
  StronglySorted (before scores) sorted /\ Permutation sorted (acc ++ seq a k).
Proof.
  revert a acc. induction k as [|k IH]; intros a acc Hs Hlt; simpl.
  - rewrite app_nil_r. split; [assumption|reflexivity].
  - destruct (IH (S a) (insert_index scores a acc)) as [Hs' Hp'].
    + now apply insert_index_sorted.
    + apply Forall_forall. intros x Hx.
      apply (Permutation_in _ (insert_index_perm a acc)) in Hx.
      rewrite Forall_forall in Hlt.
      destruct Hx as [<-|Hx]; [lia|]. specialize (Hlt x Hx). lia.
    + split; [exact Hs'|]. etransitivity; [exact Hp'|].
      etransitivity;
        [apply Permutation_app_tail, insert_index_perm|].
      apply Permutation_middle.
Qed.

(** The insertion sort lists every index once, by ascending score. *)
Lemma insertion_argsort_sorted :
  StronglySorted (before scores) (insertion_argsort scores).
Proof. apply (argsort_from _ 0 []); constructor. Qed.

Lemma insertion_argsort_perm :
  Permutation (insertion_argsort scores) (seq 0 (List.length scores)).
Proof. apply (argsort_from _ 0 []); constructor. Qed.

Lemma StronglySorted_weaken {A : Type} (R R' : A -> A -> Prop)
  (l : list A) :
  (forall x y, R x y -> R' x y) -> StronglySorted R l -> StronglySorted R' l.
Proof.
  intros HR. induction 1 as [|x l Hl IH Hx]; constructor; [exact IH|].
  eapply Forall_impl; [|exact Hx]. apply HR.
Qed.

(** It meets the contract of [argsort]. *)
Lemma insertion_argsort_ascending :
  ascending_argsort insertion_argsort scores.
Proof.
  split; [apply insertion_argsort_perm|].
  apply (StronglySorted_weaken (before scores));
    [apply before_le|apply insertion_argsort_sorted].
Qed.

End ArgsortTheory.

(** * Strongly sorted lists *)
Section SortedFacts.

Context {A B : Type}.

Lemma StronglySorted_app_iff (R : A -> A -> Prop) (l1 l2 : list A) :
  StronglySorted R (l1 ++ l2) <->
  StronglySorted R l1 /\ StronglySorted R l2
  /\ (forall x y, In x l1 -> In y l2 -> R x y).
Proof.
  induction l1 as [|a l1 IH]; simpl.
  - split; [intros H; repeat split; [constructor|exact H|tauto]|tauto].
  - split.
    + intros H. apply StronglySorted_inv in H as [Hs Ha].
      apply IH in Hs as (H1 & H2 & H12).
      rewrite Forall_app in Ha. destruct Ha as [Ha1 Ha2].
      repeat split; [now constructor|exact H2|].
      intros x y [<-|Hx] Hy; [|now apply H12].
      rewrite Forall_forall in Ha2. now apply Ha2.
    + intros (H1 & H2 & H12).
      apply StronglySorted_inv in H1 as [Hs Ha].
      constructor.
      * apply IH. repeat split; auto.
      * apply Forall_app. split; [exact Ha|].
        apply Forall_forall. intros y Hy. apply H12; auto.
Qed.

Lemma StronglySorted_rev (R : A -> A -> Prop) (l : list A) :
  StronglySorted R l -> StronglySorted (fun x y => R y x) (rev l).
Proof.
  induction 1 as [|a l Hl IH Ha]; simpl; [constructor|].
  apply StronglySorted_app_iff. repeat split.
  - exact IH.
  - repeat constructor.
  - intros x y Hx [<-|[]]. apply in_rev in Hx.
    rewrite Forall_forall in Ha. now apply Ha.
Qed.

Lemma In_firstn (n : nat) (l : list A) (x : A) :
  In x (firstn n l) -> In x l.
Proof.
  intros H. rewrite <- (firstn_skipn n l). apply in_or_app. now left.
Qed.

Lemma StronglySorted_firstn (R : A -> A -> Prop) (n : nat) (l : list A) :
  StronglySorted R l -> StronglySorted R (firstn n l).
Proof.
  intros H. rewrite <- (firstn_skipn n l) in H.
  now apply StronglySorted_app_iff in H.
Qed.

(** What [firstn] leaves out comes after what it keeps. *)
Lemma StronglySorted_firstn_rest (R : A -> A -> Prop) (n : nat)
  (l : list A) (x y : A) :
  StronglySorted R l -> In x (firstn n l) -> In y l ->
  ~ In y (firstn n l) -> R x y.
Proof.
  intros H Hx Hy Hny. rewrite <- (firstn_skipn n l) in H, Hy.
  apply StronglySorted_app_iff in H as (_ & _ & H).
  apply in_app_or in Hy as [Hy|Hy]; [contradiction|]. now apply H.
Qed.

Lemma StronglySorted_map_in (R : A -> A -> Prop) (R' : B -> B -> Prop)
  (f : A -> B) (l : list A) :
  (forall x y, In x l -> In y l -> R x y -> R' (f x) (f y)) ->
  StronglySorted R l -> StronglySorted R' (map f l).
Proof.
  intros Hf H. induction H as [|a l Hl IH Ha]; simpl; [constructor|].
  constructor.
  - apply IH. intros x y Hx Hy. apply Hf; now right.
  - apply Forall_forall. intros y Hy.
    apply in_map_iff in Hy as (x & <- & Hx).
    rewrite Forall_forall in Ha. apply Hf; simpl; auto.
Qed.

Lemma StronglySorted_nth (R : A -> A -> Prop) (l : list A) (d : A)
  (i j : nat) :
  StronglySorted R l -> (i < j < List.length l)%nat ->
  R (nth i l d) (nth j l d).
Proof.
  intros H. revert i j. induction H as [|a l Hl IH Ha]; intros i j Hij.
  - simpl in Hij. lia.
  - destruct j as [|j]; [lia|]. simpl in Hij. destruct i as [|i]; simpl.
    + rewrite Forall_forall in Ha. apply Ha, nth_In. lia.
    + apply IH. lia.
Qed.

End SortedFacts.

(** * The fitted vocabulary *)
Section VocabularyTheory.

Variable sklearn_stop_words : string -> bool.

Lemma str_before_trans (a b c : string) :
  str_before a b -> str_before b c -> str_before a c.
Proof.
  unfold str_before. intros Hab Hbc.
  apply String_as_OT.cmp_lt. apply String_as_OT.cmp_lt in Hab, Hbc.
  eapply String_as_OT.lt_trans; eassumption.
Qed.

Lemma str_before_irrefl (a : string) : ~ str_before a a.
Proof.
  unfold str_before. intros H.
  pose proof (String.compare_antisym a a) as Hanti.
  rewrite H in Hanti. discriminate.
Qed.

Lemma insert_term_In (t x : string) (l : list string) :
  In x (insert_term t l) <-> x = t \/ In x l.
Proof.
  induction l as [|u l IH]; simpl; [intuition congruence|].
  destruct (String.compare t u) eqn:E; simpl.
  - apply String.compare_eq_iff in E. subst. intuition congruence.
  - intuition congruence.
  - rewrite IH. intuition congruence.
Qed.

Lemma insert_term_sorted (t : string) (l : list string) :
  StronglySorted str_before l -> StronglySorted str_before (insert_term t l).
Proof.
  induction 1 as [|u l Hl IH Hu]; simpl; [repeat constructor|].
  destruct (String.compare t u) eqn:E.
  - now constructor.
  - constructor; [now constructor|]. constructor; [exact E|].
    eapply Forall_impl; [|exact Hu]. cbv beta. intros x.
    now apply str_before_trans.
  - constructor; [exact IH|]. apply Forall_forall. intros x Hx.
    apply insert_term_In in Hx as [->|Hx].
    + unfold str_before. rewrite String.compare_antisym, E. reflexivity.
    + rewrite Forall_forall in Hu. now apply Hu.
Qed.

Lemma insert_terms_sorted (tokens acc : list string) :
  StronglySorted str_before acc ->
  StronglySorted str_before
    (fold_left (fun terms t => insert_term t terms) tokens acc).
Proof.
  revert acc. induction tokens as [|t tokens IH]; intros acc H; simpl.
  - exact H.
  - now apply IH, insert_term_sorted.
Qed.

Lemma insert_terms_In (x : string) (tokens acc : list string) :
  In x (fold_left (fun terms t => insert_term t terms) tokens acc)
  <-> In x tokens \/ In x acc.
Proof.
  revert acc. induction tokens as [|t tokens IH]; intros acc; simpl.
  - tauto.
  - rewrite IH, insert_term_In. intuition congruence.
Qed.

(** The feature names are strictly ascending, hence distinct. *)
Lemma vocabulary_sorted (texts : list string) :
  StronglySorted str_before (vocabulary sklearn_stop_words texts).
Proof. apply insert_terms_sorted. constructor. Qed.

Lemma vocabulary_In (t : string) (texts : list string) :
  In t (vocabulary sklearn_stop_words texts)
  <-> exists doc, In doc texts /\ In t (analyze sklearn_stop_words doc).
Proof.
  unfold vocabulary. rewrite insert_terms_In, in_concat. simpl.
  split.
  - intros [(l & Hl & Ht)|[]]. apply in_map_iff in Hl as (doc & <- & Hd).
    eauto.
  - intros (doc & Hd & Ht). left. exists (analyze sklearn_stop_words doc).
    split; [now apply in_map|exact Ht].
Qed.

End VocabularyTheory.

(** * [get_top_tfidf_terms] *)

Section TfidfTheory.

Variable sklearn_stop_words : string -> bool.
Variable tfidf_mean : list (list nat) -> list nat -> Q.
Variable argsort : list Q -> list nat.

(** Section-local short names. *)
Let voc (texts : list string) : list string :=
  vocabulary sklearn_stop_words texts.
Let score (texts : list string) (t : string) : Q :=
  term_score sklearn_stop_words tfidf_mean texts t.
Let scores_by_index (texts : list string) : list Q :=
  scores_of sklearn_stop_words tfidf_mean texts.
Let top (texts : list string) (n : nat) : list string :=
  map (fun i => nth i (voc texts) "")
      (top_indices sklearn_stop_words tfidf_mean argsort texts n).

Lemma column_count_matrix (texts : list string) (j : nat) :
  (j < List.length (voc texts))%nat ->
  column j (count_matrix sklearn_stop_words texts)
  = map (fun doc => count (nth j (voc texts) "")
                          (analyze sklearn_stop_words doc)) texts.
Proof.
  intros Hj. unfold column, count_matrix. rewrite map_map.
  apply map_ext. intros doc.
  rewrite (nth_indep _ 0%nat
             (count "" (analyze sklearn_stop_words doc)))
    by now rewrite length_map.
  apply (map_nth (fun t => count t (analyze sklearn_stop_words doc))).
Qed.

Lemma fit_transform_spec (texts : list string) :
  fit_transform sklearn_stop_words tfidf_mean texts
  = match voc texts with
    | [] => Raise empty_vocabulary
    | _ => Ok {| feature_names := voc texts;
                 scores := scores_by_index texts |}
    end.
Proof.
  unfold fit_transform, scores_by_index, scores_of, voc.
  pose proof (column_count_matrix texts) as Hcol. unfold voc in Hcol.
  destruct (vocabulary sklearn_stop_words texts) as [|t names] eqn:V;
    [reflexivity|].
  f_equal. f_equal. apply map_ext_in. intros j Hj. apply in_seq in Hj.
  unfold term_score. rewrite Hcol by (simpl in *; lia). reflexivity.
Qed.

Lemma score_at_scores_of (texts : list string) (j : nat) :
  (j < List.length (voc texts))%nat ->
  score_at (scores_by_index texts) j = score texts (nth j (voc texts) "").
Proof.
  intros Hj. unfold score_at, scores_by_index, scores_of.
  fold (voc texts). fold (score texts).
  rewrite (nth_indep _ 0%Q (score texts (nth 0%nat (voc texts) "")))
    by now rewrite length_map, length_seq.
  rewrite (map_nth (fun j => score texts (nth j (voc texts) ""))).
  rewrite seq_nth by assumption. reflexivity.
Qed.

Lemma length_scores_of (texts : list string) :
  List.length (scores_by_index texts) = List.length (voc texts).
Proof.
  unfold scores_by_index, scores_of. now rewrite length_map, length_seq.
Qed.

(** [get_top_tfidf_terms] raises exactly on an empty vocabulary, and
    otherwise names the selected indices. *)
Lemma get_top_tfidf_terms_spec (texts : list string) (n : nat) :
  get_top_tfidf_terms sklearn_stop_words tfidf_mean argsort texts n
  = match vocabulary sklearn_stop_words texts with
    | [] => Raise empty_vocabulary
    | _ => Ok (map (fun i => nth i (vocabulary sklearn_stop_words texts) "")
                   (top_indices sklearn_stop_words tfidf_mean argsort
                                texts n))
    end.
Proof.
  unfold get_top_tfidf_terms. rewrite fit_transform_spec. unfold voc.
  destruct (vocabulary sklearn_stop_words texts); reflexivity.
Qed.

Lemma vocabulary_nth_before (texts : list string) (i j : nat) :
  (i < j < List.length (voc texts))%nat ->
  PyStr.str_lt (nth i (voc texts) "") (nth j (voc texts) "") = true.
Proof.
  intros H. unfold PyStr.str_lt, String.ltb.
  pose proof (StronglySorted_nth _ _ "" i j
                (vocabulary_sorted sklearn_stop_words texts) H) as Hlt.
  unfold str_before in Hlt. fold (voc texts) in Hlt. now rewrite Hlt.
Qed.

Lemma vocabulary_nth_inj (texts : list string) (i j : nat) :
  (i < List.length (voc texts))%nat ->
  (j < List.length (voc texts))%nat ->
  nth i (voc texts) "" = nth j (voc texts) "" -> i = j.
Proof.
  intros Hi Hj E.
  assert (Hno : forall a b, (a < b < List.length (voc texts))%nat ->
                            nth a (voc texts) "" <> nth b (voc texts) "").
  { intros a b Hab Eab.
    pose proof (vocabulary_nth_before texts a b Hab) as Hlt.
    rewrite Eab in Hlt. unfold PyStr.str_lt, String.ltb in Hlt.
    destruct (String.compare _ _) eqn:C; try discriminate.
    now apply str_before_irrefl in C. }
  destruct (Nat.lt_trichotomy i j) as [H|[H|H]]; [|exact H|].
  - now destruct (Hno i j (conj H Hj)).
  - now destruct (Hno j i (conj H Hi)).
Qed.

(** Whatever order [argsort] leaves the indices in is handed on, reversed,
    to the terms. *)
Lemma top_terms_order (R : nat -> nat -> Prop)
  (R' : string -> string -> Prop) (texts : list string) (n : nat) :
  Permutation (argsort (scores_by_index texts))
              (seq 0 (List.length (scores_by_index texts))) ->
  StronglySorted R (argsort (scores_by_index texts)) ->
  (forall i j, (i < List.length (voc texts))%nat ->
               (j < List.length (voc texts))%nat ->
               R j i ->
               R' (nth i (voc texts) "") (nth j (voc texts) "")) ->
  List.length (top texts n) = Nat.min n (List.length (voc texts))
  /\ incl (top texts n) (voc texts)
  /\ NoDup (top texts n)
  /\ StronglySorted R' (top texts n)
  /\ (forall t u, In t (top texts n) -> In u (voc texts) ->
                  ~ In u (top texts n) -> R' t u).
Proof.
  intros Hperm Hsorted Hname.
  assert (Hrange : forall i, In i (argsort (scores_by_index texts)) <->
                             (i < List.length (voc texts))%nat).
  { intros i. rewrite <- length_scores_of. split; intros H.
    - apply (Permutation_in _ Hperm) in H. apply in_seq in H. lia.
    - apply (Permutation_in _ (Permutation_sym Hperm)). apply in_seq. lia. }
  assert (Htop : forall i,
             In i (top_indices sklearn_stop_words tfidf_mean argsort
                               texts n) ->
             (i < List.length (voc texts))%nat).
  { intros i H. apply Hrange, in_rev. revert H. apply In_firstn. }
  pose proof (StronglySorted_rev _ _ Hsorted) as Hrev.
  unfold top, top_indices in *. fold (scores_by_index texts) in *.
  split; [|split; [|split; [|split]]].
  - rewrite length_map.
    rewrite length_firstn, length_rev.
    rewrite (Permutation_length Hperm), length_seq.
    apply (f_equal (Nat.min n)), length_scores_of.
  - intros t Ht. apply in_map_iff in Ht as (i & <- & Hi).
    apply nth_In. now apply Htop.
  - apply NoDup_map_NoDup_ForallPairs.
    + intros i j Hi Hj. apply vocabulary_nth_inj; now apply Htop.
    + apply (NoDup_app_remove_r _ (skipn n (rev (argsort
                                      (scores_by_index texts))))).
      rewrite firstn_skipn. apply NoDup_rev.
      apply (Permutation_NoDup (Permutation_sym Hperm)), seq_NoDup.
  - apply (StronglySorted_map_in (fun i j => R j i)).
    + intros i j Hi Hj. apply Hname; now apply Htop.
    + now apply StronglySorted_firstn.
  - intros t u Ht Hu Hnu.
    apply in_map_iff in Ht as (i & <- & Hi).
    apply (In_nth _ _ "") in Hu as (j & Hj & <-).
    apply Hname; [now apply Htop|exact Hj|].
    apply (StronglySorted_firstn_rest _ n _ i j Hrev Hi).
    + apply -> in_rev. now apply Hrange.
    + intros Hin. apply Hnu.
      apply in_map_iff. exists j. split; [reflexivity|exact Hin].
Qed.

(** C3, amended.  Given an [argsort] that meets its contract,
    [get_top_tfidf_terms] raises exactly when the vocabulary is empty;
    otherwise it returns [min n |vocabulary|] distinct terms of the
    vocabulary by descending mean score, and every term it leaves out scores
    no higher than any term it returns.  Nothing orders equal scores by
    term. *)
Theorem get_top_tfidf_terms_ranking (texts : list string) (n : nat) :
  (forall scores, ascending_argsort argsort scores) ->
  match get_top_tfidf_terms sklearn_stop_words tfidf_mean argsort texts n
  with
  | Raise e =>
      e = empty_vocabulary /\ vocabulary sklearn_stop_words texts = []
  | Ok terms =>
      vocabulary sklearn_stop_words texts <> []
      /\ List.length terms
         = Nat.min n (List.length (vocabulary sklearn_stop_words texts))
      /\ incl terms (vocabulary sklearn_stop_words texts)
      /\ NoDup terms
      /\ StronglySorted
           (scores_no_lower
              (term_score sklearn_stop_words tfidf_mean texts))
           terms
      /\ (forall t u,
             In t terms ->
             In u (vocabulary sklearn_stop_words texts) ->
             ~ In u terms ->
             (term_score sklearn_stop_words tfidf_mean texts u
              <= term_score sklearn_stop_words tfidf_mean texts t)%Q)
  end.
Proof.
  intros Hargsort. rewrite get_top_tfidf_terms_spec.
  fold (voc texts). fold (score texts).
  destruct (voc texts) as [|t0 names] eqn:V; [split; reflexivity|].
  rewrite <- V. fold (top texts n).
  destruct (Hargsort (scores_by_index texts)) as [Hperm Hsorted].
  split; [rewrite V; discriminate|].
  apply (top_terms_order _ (scores_no_lower (score texts)) texts n
           Hperm Hsorted).
  intros i j Hi Hj Hle. unfold scores_no_lower.
  now rewrite !score_at_scores_of in Hle by assumption.
Qed.

(** With a non-empty vocabulary and a positive [n], what is returned is a
    top ranking. *)
Lemma get_top_tfidf_terms_top_ranking (texts : list string) (n : nat) :
  (forall scores, ascending_argsort argsort scores) ->
  vocabulary sklearn_stop_words texts <> [] ->
  (0 < n)%nat ->
  exists terms,
    get_top_tfidf_terms sklearn_stop_words tfidf_mean argsort texts n
    = Ok terms
    /\ top_ranking sklearn_stop_words tfidf_mean texts n terms.
Proof.
  intros Hargsort Hvoc Hn. rewrite get_top_tfidf_terms_spec.
  fold (voc texts) in *.
  destruct (voc texts) as [|t0 names] eqn:V; [now destruct Hvoc|].
  rewrite <- V. fold (top texts n). exists (top texts n).
  split; [reflexivity|].
  destruct (Hargsort (scores_by_index texts)) as [Hperm Hsorted].
  destruct (top_terms_order _ (scores_no_lower (score texts)) texts n
              Hperm Hsorted) as (Hlen & Hrest).
  { intros i j Hi Hj Hle. unfold scores_no_lower.
    now rewrite !score_at_scores_of in Hle by assumption. }
  unfold top_ranking. fold (voc texts). fold (score texts).
  split; [|split; [exact Hlen|exact Hrest]].
  intros E. rewrite E, V in Hlen. simpl in Hlen.
  destruct n; [lia|discriminate Hlen].
Qed.

End TfidfTheory.

Lemma Qle_bool_refl (q : Q) : Qle_bool q q = true.
Proof. apply Qle_bool_iff, Qle_refl. Qed.

(** C3, the claim as written fails: in the one-document corpus "apple banana"
    the two terms have the same counts, hence the same mean score whatever
    the weighting, and with an [argsort] that returns the two equal scores
    as the indices 0, 1 the reversal gives banana, apple: descending, not
    ascending, lexicographic order. *)
Lemma get_top_tfidf_terms_tie_descending :
  (forall tfidf_mean,
      get_top_tfidf_terms SklearnStopWords.stop_words tfidf_mean
                          insertion_argsort ["apple banana"] 10
      = Ok ["banana"; "apple"])
  /\ (forall tfidf_mean,
         term_score SklearnStopWords.stop_words tfidf_mean
                    ["apple banana"] "apple"
         = term_score SklearnStopWords.stop_words tfidf_mean
                      ["apple banana"] "banana")
  /\ PyStr.str_lt "apple" "banana" = true.
Proof.
  split; [|split]; [| |reflexivity].
  - intros w. unfold get_top_tfidf_terms, fit_transform.
    change (vocabulary SklearnStopWords.stop_words ["apple banana"])
      with ["apple"; "banana"].
    change (count_matrix SklearnStopWords.stop_words ["apple banana"])
      with [[1%nat; 1%nat]].
    cbn -[Qle_bool]. rewrite Qle_bool_refl. reflexivity.
  - intros w. reflexivity.
Qed.

Lemma get_top_tfidf_terms_ranking_witness :
  (forall scores, ascending_argsort insertion_argsort scores)
  /\ (forall tfidf_mean,
         match get_top_tfidf_terms SklearnStopWords.stop_words tfidf_mean
                 insertion_argsort ["apple banana"; "banana cherry"] 2
         with
         | Raise _ => False
         | Ok terms =>
             List.length terms = 2%nat
             /\ incl terms ["apple"; "banana"; "cherry"]
             /\ StronglySorted
                  (scores_no_lower
                     (term_score SklearnStopWords.stop_words tfidf_mean
                                 ["apple banana"; "banana cherry"]))
                  terms
         end).
Proof.
  split; [exact insertion_argsort_ascending|]. intros w.
  pose proof (get_top_tfidf_terms_ranking SklearnStopWords.stop_words w
                insertion_argsort ["apple banana"; "banana cherry"] 2
                insertion_argsort_ascending) as H.
  destruct (get_top_tfidf_terms _ _ _ _ _) as [terms|e].
  - destruct H as (_ & Hlen & Hincl & _ & Hsorted & _).
    repeat split; assumption.
  - destruct H as [_ H]. discriminate H.
Defined.

(** * Cluster ids and dictionaries *)
Section IdFacts.

Lemma insert_id_perm (x : Z) (l : list Z) :
  Permutation (insert_id x l) (x :: l).
Proof.
  induction l as [|y l IH]; simpl; [reflexivity|].
  destruct (Z.leb x y); [reflexivity|].
  rewrite IH. apply perm_swap.
Qed.

Lemma sorted_perm (l : list Z) : Permutation (sorted l) l.
Proof.
  unfold sorted. induction l as [|x l IH]; simpl; [reflexivity|].
  rewrite insert_id_perm. now constructor.
Qed.

Lemma insert_id_ascending (x : Z) (l : list Z) :
  StronglySorted Z.le l -> StronglySorted Z.le (insert_id x l).
Proof.
  induction 1 as [|y l Hl IH Hy]; simpl; [repeat constructor|].
  destruct (Z.leb x y) eqn:E.
  - apply Z.leb_le in E. constructor; [now constructor|].
    constructor; [exact E|].
    eapply Forall_impl; [|exact Hy]. cbv beta. intros z Hz. lia.
  - apply Z.leb_gt in E. constructor; [exact IH|].
    apply Forall_forall. intros z Hz.
    apply (Permutation_in _ (insert_id_perm x l)) in Hz.
    destruct Hz as [<-|Hz]; [lia|].
    rewrite Forall_forall in Hy. now apply Hy.
Qed.

Lemma sorted_ascending (l : list Z) : StronglySorted Z.le (sorted l).
Proof.
  unfold sorted. induction l as [|x l IH]; simpl; [constructor|].
  now apply insert_id_ascending.
Qed.

Lemma unique_In (x : Z) (l : list Z) : In x (unique l) <-> In x l.
Proof.
  induction l as [|y l IH]; simpl; [tauto|].
  rewrite filter_In, IH, negb_true_iff, Z.eqb_neq.
  destruct (Z.eq_dec y x); intuition congruence.
Qed.

Lemma unique_NoDup (l : list Z) : NoDup (unique l).
Proof.
  induction l as [|y l IH]; simpl; constructor.
  - rewrite filter_In, negb_true_iff, Z.eqb_neq. tauto.
  - now apply NoDup_filter.
Qed.

Lemma sorted_unique_In (x : Z) (l : list Z) :
  In x (sorted (unique l)) <-> In x l.
Proof.
  split; intros H.
  - apply unique_In. revert H. apply Permutation_in, sorted_perm.
  - apply unique_In in H. revert H.
    apply Permutation_in. symmetry. apply sorted_perm.
Qed.

Lemma sorted_unique_NoDup (l : list Z) : NoDup (sorted (unique l)).
Proof.
  eapply Permutation_NoDup; [symmetry; apply sorted_perm|].
  apply unique_NoDup.
Qed.

Lemma ascending_NoDup_strict (l : list Z) :
  StronglySorted Z.le l -> NoDup l -> StronglySorted Z.lt l.
Proof.
  induction 1 as [|x l Hl IH Hx]; intros Hnd; [constructor|].
  inversion Hnd as [|? ? Hnin Hnd']; subst.
  constructor; [now apply IH|].
  apply Forall_forall. intros y Hy. rewrite Forall_forall in Hx.
  specialize (Hx y Hy). assert (x <> y) by congruence. lia.
Qed.

(** [sorted(df['cluster'].unique())] lists the distinct cluster ids in
    strictly ascending order. *)
Lemma sorted_unique_strict (l : list Z) :
  StronglySorted Z.lt (sorted (unique l)).
Proof.
  apply ascending_NoDup_strict;
    [apply sorted_ascending|apply sorted_unique_NoDup].
Qed.

Context {V : Type}.

Lemma dict_lookup_set_same (k : Z) (v : V) (d : dict V) :
  dict_lookup k (dict_set k v d) = Some v.
Proof.
  induction d as [|[k' v'] d IH]; simpl.
  - now rewrite Z.eqb_refl.
  - destruct (Z.eqb k' k) eqn:E; simpl; [now rewrite Z.eqb_refl|].
    now rewrite E.
Qed.

Lemma dict_lookup_set_other (k k' : Z) (v : V) (d : dict V) :
  k <> k' -> dict_lookup k (dict_set k' v d) = dict_lookup k d.
Proof.
  intros Hne. induction d as [|[k0 v0] d IH]; simpl.
  - destruct (Z.eqb k' k) eqn:E; [apply Z.eqb_eq in E; congruence|].
    reflexivity.
  - destruct (Z.eqb k0 k') eqn:E; simpl.
    + apply Z.eqb_eq in E. subst k0.
      destruct (Z.eqb k' k) eqn:E'; [apply Z.eqb_eq in E'; congruence|].
      reflexivity.
    + destruct (Z.eqb k0 k); [reflexivity|exact IH].
Qed.

Lemma dict_set_fresh (k : Z) (v : V) (d : dict V) :
  ~ In k (map fst d) -> dict_set k v d = (d ++ [(k, v)])%list.
Proof.
  induction d as [|[k' v'] d IH]; simpl; [reflexivity|].
  intros Hnin. destruct (Z.eqb k' k) eqn:E.
  - apply Z.eqb_eq in E. tauto.
  - rewrite IH by tauto. reflexivity.
Qed.

End IdFacts.

(** * The cluster analysis loops *)

Section AnalysisTheory.

Variable sklearn_stop_words : string -> bool.
Variable tfidf_mean : list (list nat) -> list nat -> Q.
Variable argsort : list Q -> list nat.

Lemma vocabulary_of_empty_texts (texts : list string) :
  Forall (fun doc => doc = "") texts ->
  vocabulary sklearn_stop_words texts = [].
Proof.
  intros H. unfold vocabulary.
  replace (List.concat (map (analyze sklearn_stop_words) texts))
    with (@nil string); [reflexivity|].
  induction H as [|doc texts -> _ IH]; simpl; [reflexivity|exact IH].
Qed.

Lemma cluster_texts_member (df : dataframe) (c : Z) :
  In c (map cluster df) -> cluster_texts df c <> [].
Proof.
  intros Hin E. apply in_map_iff in Hin as (r & Hc & Hr).
  assert (Hin : In (cleaned_description r) (cluster_texts df c)).
  { unfold cluster_texts. apply in_map, filter_In. split; [exact Hr|].
    now apply Z.eqb_eq. }
  rewrite E in Hin. exact Hin.
Qed.

Lemma cluster_texts_all_empty (df : dataframe) (c : Z) :
  (forall r, In r df -> cluster r = c -> cleaned_description r = "") ->
  vocabulary sklearn_stop_words (cluster_texts df c) = [].
Proof.
  intros H. apply vocabulary_of_empty_texts, Forall_forall.
  intros doc Hdoc. unfold cluster_texts in Hdoc.
  apply in_map_iff in Hdoc as (r & <- & Hr).
  apply filter_In in Hr as [Hr Hc]. apply Z.eqb_eq in Hc. auto.
Qed.

Lemma length_zero_iff {A : Type} (l : list A) :
  Nat.eqb (List.length l) 0 = true <-> l = [].
Proof. destruct l; simpl; split; congruence. Qed.

(** clustering-test-2.py: a cluster with members whose texts leave no term
    ends the loop with the vectorizer's exception, wherever it comes in the
    order. *)
Lemma analysis_loop_raises_2 (df : dataframe) (c : Z) (ids : list Z) :
  cluster_texts df c <> [] ->
  vocabulary sklearn_stop_words (cluster_texts df c) = [] ->
  In c ids ->
  forall cluster_terms printed,
    snd (ClusteringTest2.analysis_loop sklearn_stop_words tfidf_mean argsort
           df ids cluster_terms printed)
    = Raise empty_vocabulary.
Proof.
  intros Hmem Hvoc. induction ids as [|c' ids IH]; intros Hin terms printed;
    [destruct Hin|].
  simpl. destruct (Nat.eqb _ 0) eqn:Hlen.
  - apply length_zero_iff in Hlen.
    destruct Hin as [->|Hin]; [contradiction|now apply IH].
  - rewrite get_top_tfidf_terms_spec.
    destruct (vocabulary sklearn_stop_words (cluster_texts df c')) eqn:V;
      [reflexivity|].
    destruct Hin as [->|Hin]; [congruence|now apply IH].
Qed.

(** clustering-test.py: the same, without the length test. *)
Lemma analysis_loop_raises_1 (df : dataframe) (c : Z) (ids : list Z) :
  vocabulary sklearn_stop_words (cluster_texts df c) = [] ->
  In c ids ->
  forall cluster_terms printed,
    snd (ClusteringTest.analysis_loop sklearn_stop_words tfidf_mean argsort
           df ids cluster_terms printed)
    = Raise empty_vocabulary.
Proof.
  intros Hvoc. induction ids as [|c' ids IH]; intros Hin terms printed;
    [destruct Hin|].
  simpl. rewrite get_top_tfidf_terms_spec.
  destruct (vocabulary sklearn_stop_words (cluster_texts df c')) eqn:V;
    [reflexivity|].
  destruct Hin as [->|Hin]; [congruence|now apply IH].
Qed.

(** C1.  What the code does where the claim promises a skip: a cluster all
    of whose members have an empty cleaned text makes both scripts stop with
    the vectorizer's [ValueError]; the length test in clustering-test-2.py
    counts members, not terms, and never fires for an id taken from the
    frame. *)
Theorem cluster_analysis_raises_on_empty_cluster (df : dataframe) (c : Z) :
  In c (map cluster df) ->
  (forall r, In r df -> cluster r = c -> cleaned_description r = "") ->
  snd (ClusteringTest2.cluster_analysis sklearn_stop_words tfidf_mean
                                        argsort df)
  = Raise empty_vocabulary
  /\ snd (ClusteringTest.cluster_analysis sklearn_stop_words tfidf_mean
                                          argsort df)
     = Raise empty_vocabulary.
Proof.
  intros Hin Hempty.
  pose proof (cluster_texts_all_empty df c Hempty) as Hvoc.
  split.
  - apply (analysis_loop_raises_2 df c);
      [now apply cluster_texts_member|exact Hvoc|].
    now apply sorted_unique_In.
  - apply (analysis_loop_raises_1 df c); [exact Hvoc|].
    now apply unique_In.
Qed.

Lemma vocabulary_nil : vocabulary sklearn_stop_words [] = [].
Proof. reflexivity. Qed.

Lemma top_terms_of_ok (df : dataframe) (c : Z) :
  vocabulary sklearn_stop_words (cluster_texts df c) <> [] ->
  get_top_tfidf_terms sklearn_stop_words tfidf_mean
                      argsort (cluster_texts df c) 10
  = Ok (top_terms_of sklearn_stop_words tfidf_mean argsort df c).
Proof.
  intros Hc. unfold top_terms_of. rewrite get_top_tfidf_terms_spec.
  destruct (vocabulary sklearn_stop_words (cluster_texts df c));
    [now destruct Hc|reflexivity].
Qed.

(** With an [argsort] that meets its contract, the terms of a cluster that
    has a term are a top ranking of its texts. *)
Lemma top_terms_of_terms (df : dataframe) (c : Z) :
  (forall scores, ascending_argsort argsort scores) ->
  vocabulary sklearn_stop_words (cluster_texts df c) <> [] ->
  top_ranking sklearn_stop_words tfidf_mean (cluster_texts df c) 10
              (top_terms_of sklearn_stop_words tfidf_mean argsort df c).
Proof.
  intros Hargsort Hvoc.
  destruct (get_top_tfidf_terms_top_ranking sklearn_stop_words tfidf_mean
              argsort (cluster_texts df c) 10 Hargsort Hvoc)
    as (terms & Hterms & Hrank); [lia|].
  unfold top_terms_of. now rewrite Hterms.
Qed.

(** clustering-test-2.py: when every id has a term left, the loop prints one
    line per id, in the order of the ids, and records each id's terms. *)
Lemma analysis_loop_labels_2 (df : dataframe) (ids : list Z) :
  NoDup ids ->
  Forall (fun c => vocabulary sklearn_stop_words (cluster_texts df c) <> [])
         ids ->
  forall cluster_terms printed,
  exists cluster_terms',
    ClusteringTest2.analysis_loop sklearn_stop_words tfidf_mean argsort
      df ids cluster_terms printed
    = ((printed
        ++ map (fun c => ClusteringTest2.report_line c
                           (top_terms_of sklearn_stop_words tfidf_mean
                                         argsort df c))
               ids)%list,
       Ok cluster_terms')
    /\ (forall c, In c ids ->
                  dict_lookup c cluster_terms'
                  = Some (top_terms_of sklearn_stop_words tfidf_mean
                                       argsort df c))
    /\ (forall c, ~ In c ids ->
                  dict_lookup c cluster_terms' = dict_lookup c cluster_terms).
Proof.
  intros Hnd Hvoc. induction ids as [|c ids IH]; intros terms printed.
  - exists terms. simpl. rewrite app_nil_r. repeat split; tauto.
  - inversion Hnd as [|? ? Hnin Hnd']; subst.
    inversion Hvoc as [|? ? Hc Hvoc']; subst.
    simpl ClusteringTest2.analysis_loop.
    destruct (Nat.eqb _ 0) eqn:Hlen.
    { apply length_zero_iff in Hlen. rewrite Hlen in Hc. now destruct Hc. }
    rewrite (top_terms_of_ok df c Hc).
    set (top := top_terms_of sklearn_stop_words tfidf_mean argsort df c).
    destruct (IH Hnd' Hvoc' (dict_set c top terms)
                 (printed ++ [ClusteringTest2.report_line c top])%list)
      as (terms' & Hloop & Hin & Hout).
    exists terms'. split; [|split].
    + rewrite Hloop, <- app_assoc. reflexivity.
    + intros c0 [<-|Hc0]; [|now apply Hin].
      rewrite Hout by assumption. apply dict_lookup_set_same.
    + intros c0 Hc0. simpl in Hc0.
      rewrite Hout by tauto. apply dict_lookup_set_other.
      intuition congruence.
Qed.

(** clustering-test.py: the same loop without the length test. *)
Lemma analysis_loop_labels_1 (df : dataframe) (ids : list Z) :
  NoDup ids ->
  Forall (fun c => vocabulary sklearn_stop_words (cluster_texts df c) <> [])
         ids ->
  forall cluster_terms printed,
  exists cluster_terms',
    ClusteringTest.analysis_loop sklearn_stop_words tfidf_mean argsort
      df ids cluster_terms printed
    = ((printed
        ++ map (fun c => ClusteringTest.report_line c
                           (top_terms_of sklearn_stop_words tfidf_mean
                                         argsort df c))
               ids)%list,
       Ok cluster_terms')
    /\ (forall c, In c ids ->
                  dict_lookup c cluster_terms'
                  = Some (top_terms_of sklearn_stop_words tfidf_mean
                                       argsort df c))
    /\ (forall c, ~ In c ids ->
                  dict_lookup c cluster_terms' = dict_lookup c cluster_terms).
Proof.
  intros Hnd Hvoc. induction ids as [|c ids IH]; intros terms printed.
  - exists terms. simpl. rewrite app_nil_r. repeat split; tauto.
  - inversion Hnd as [|? ? Hnin Hnd']; subst.
    inversion Hvoc as [|? ? Hc Hvoc']; subst.
    simpl ClusteringTest.analysis_loop.
    rewrite (top_terms_of_ok df c Hc).
    set (top := top_terms_of sklearn_stop_words tfidf_mean argsort df c).
    destruct (IH Hnd' Hvoc' (dict_set c top terms)
                 (printed ++ [ClusteringTest.report_line c top])%list)
      as (terms' & Hloop & Hin & Hout).
    exists terms'. split; [|split].
    + rewrite Hloop, <- app_assoc. reflexivity.
    + intros c0 [<-|Hc0]; [|now apply Hin].
      rewrite Hout by assumption. apply dict_lookup_set_same.
    + intros c0 Hc0. simpl in Hc0.
      rewrite Hout by tauto. apply dict_lookup_set_other.
      intuition congruence.
Qed.

Lemma labelable_spec (df : dataframe) :
  labelable sklearn_stop_words df = true ->
  forall c, In c (map cluster df) ->
            vocabulary sklearn_stop_words (cluster_texts df c) <> [].
Proof.
  unfold labelable. rewrite forallb_forall. intros H c Hc E.
  apply unique_In in Hc. specialize (H c Hc). rewrite E in H. discriminate.
Qed.

End AnalysisTheory.

Lemma Forall2_map_self {A B : Type} (P : A -> B -> Prop) (f : A -> B)
  (l : list A) :
  (forall x, In x l -> P x (f x)) -> Forall2 P l (map f l).
Proof.
  induction l as [|x l IH]; intros H; simpl; constructor.
  - apply H. now left.
  - apply IH. intros y Hy. apply H. now right.
Qed.

Section ReportTheory.

Variable sklearn_stop_words : string -> bool.
Variable tfidf_mean : list (list nat) -> list nat -> Q.
Variable argsort : list Q -> list nat.

(** clustering-test-2.py on a labelable frame: the header, then one line per
    cluster id in ascending order of id. *)
Lemma cluster_analysis_report_2 (df : dataframe) :
  labelable sklearn_stop_words df = true ->
  exists cluster_terms,
    ClusteringTest2.cluster_analysis sklearn_stop_words tfidf_mean argsort df
    = ("Cluster Analysis:"
         :: map (fun c => ClusteringTest2.report_line c
                            (top_terms_of sklearn_stop_words tfidf_mean
                                          argsort df c))
                (sorted (unique (map cluster df))),
       Ok cluster_terms)
    /\ forall c, In c (map cluster df) ->
                 dict_lookup c cluster_terms
                 = Some (top_terms_of sklearn_stop_words tfidf_mean
                                      argsort df c).
Proof.
  intros Hlab. unfold ClusteringTest2.cluster_analysis.
  assert (Hvoc : Forall (fun c => vocabulary sklearn_stop_words
                                     (cluster_texts df c) <> [])
                        (sorted (unique (map cluster df)))).
  { apply Forall_forall. intros c Hc.
    apply (proj1 (sorted_unique_In _ _)) in Hc.
    now apply labelable_spec. }
  destruct (analysis_loop_labels_2 sklearn_stop_words tfidf_mean argsort df _
              (sorted_unique_NoDup _) Hvoc [] ["Cluster Analysis:"])
    as (terms & Hloop & Hin & _).
  exists terms. split; [exact Hloop|].
  intros c Hc. now apply Hin, sorted_unique_In.
Qed.

(** clustering-test.py on a labelable frame: one line per cluster id in the
    order in which the ids first appear in the frame. *)
Lemma cluster_analysis_report_1 (df : dataframe) :
  labelable sklearn_stop_words df = true ->
  exists cluster_terms,
    ClusteringTest.cluster_analysis sklearn_stop_words tfidf_mean argsort df
    = ("Cluster analysis:"
         :: map (fun c => ClusteringTest.report_line c
                            (top_terms_of sklearn_stop_words tfidf_mean
                                          argsort df c))
                (unique (map cluster df)),
       Ok cluster_terms)
    /\ forall c, In c (map cluster df) ->
                 dict_lookup c cluster_terms
                 = Some (top_terms_of sklearn_stop_words tfidf_mean
                                      argsort df c).
Proof.
  intros Hlab. unfold ClusteringTest.cluster_analysis.
  assert (Hvoc : Forall (fun c => vocabulary sklearn_stop_words
                                     (cluster_texts df c) <> [])
                        (unique (map cluster df))).
  { apply Forall_forall. intros c Hc. apply (proj1 (unique_In _ _)) in Hc.
    now apply labelable_spec. }
  destruct (analysis_loop_labels_1 sklearn_stop_words tfidf_mean argsort df _
              (unique_NoDup _) Hvoc [] ["Cluster analysis:"])
    as (terms & Hloop & Hin & _).
  exists terms. split; [exact Hloop|].
  intros c Hc. now apply Hin, unique_In.
Qed.

(** X1.  clustering-test-2.py on a frame all of whose clusters have a term:
    the report is the header followed by exactly one line per distinct
    cluster id, each with that cluster's comma-joined top terms, and the ids
    of the lines are strictly ascending. *)
Theorem report_is_ascending_in_clustering_test_2 (df : dataframe) :
  labelable sklearn_stop_words df = true ->
  exists ids,
    fst (ClusteringTest2.cluster_analysis sklearn_stop_words tfidf_mean
                                          argsort df)
    = "Cluster Analysis:"
        :: map (fun c => ClusteringTest2.report_line c
                           (top_terms_of sklearn_stop_words tfidf_mean
                                         argsort df c))
               ids
    /\ StronglySorted Z.lt ids
    /\ (forall c, In c ids <-> In c (map cluster df)).
Proof.
  intros Hlab. exists (sorted (unique (map cluster df))).
  destruct (cluster_analysis_report_2 df Hlab) as (terms & Hrun & _).
  rewrite Hrun. split; [reflexivity|].
  split; [apply sorted_unique_strict|]. intros c. apply sorted_unique_In.
Qed.

(** C10, amended.  When some record is labelled -1 and every cluster, the
    noise included, leaves TF-IDF a term, the noise records' texts get
    their terms like any cluster's: with an [argsort] that meets its
    contract they are the ten best terms of the noise texts (all of them if
    there are fewer), in descending order of mean score; both scripts store
    them under -1, print the line of cluster -1 with them, and write them
    into the popup of every noise marker.  Nothing is consulted to opt
    in. *)
Theorem noise_cluster_is_summarised (df : dataframe) :
  (forall scores, ascending_argsort argsort scores) ->
  In (-1)%Z (map cluster df) ->
  labelable sklearn_stop_words df = true ->
  exists top_terms,
    get_top_tfidf_terms sklearn_stop_words tfidf_mean argsort
                        (cluster_texts df (-1)) 10 = Ok top_terms
    /\ top_ranking sklearn_stop_words tfidf_mean (cluster_texts df (-1)) 10
                   top_terms
    /\ (exists printed cluster_terms,
           ClusteringTest2.cluster_analysis sklearn_stop_words tfidf_mean
                                            argsort df
           = (printed, Ok cluster_terms)
           /\ dict_lookup (-1) cluster_terms = Some top_terms
           /\ In ("Cluster -1 => " ++ PyStr.join ", " top_terms) printed
           /\ forall r,
               In r df -> cluster r = (-1)%Z ->
               popup (ClusteringTest2.circle_marker
                        (ClusteringTest2.cluster_color_map df)
                        cluster_terms r)
               = newline ++ "        <b>Cluster:</b> -1<br>"
                 ++ newline ++ "        <b>Top Terms:</b> "
                 ++ PyStr.join ", " top_terms ++ "<br>"
                 ++ newline ++ "        <b>Description:</b> "
                 ++ str_of_description (description r)
                 ++ newline ++ "        ")
    /\ (exists printed cluster_terms,
           ClusteringTest.cluster_analysis sklearn_stop_words tfidf_mean
                                           argsort df
           = (printed, Ok cluster_terms)
           /\ dict_lookup (-1) cluster_terms = Some top_terms
           /\ In ("Cluster -1: " ++ PyStr.join ", " top_terms) printed
           /\ forall r,
               In r df -> cluster r = (-1)%Z ->
               popup (ClusteringTest.circle_marker cluster_terms r)
               = newline ++ "        <b>Cluster:</b> -1<br>"
                 ++ newline ++ "        <b>Top Terms:</b> "
                 ++ PyStr.join ", " top_terms ++ "<br>"
                 ++ newline ++ "        <b>Description:</b> "
                 ++ str_of_description (description r)
                 ++ newline ++ "        ").
Proof.
  intros Hargsort Hnoise Hlab.
  pose proof (labelable_spec sklearn_stop_words df Hlab _ Hnoise) as Hvoc.
  pose proof (top_terms_of_terms sklearn_stop_words tfidf_mean argsort
                df (-1) Hargsort Hvoc) as Hrank.
  exists (top_terms_of sklearn_stop_words tfidf_mean argsort df (-1)).
  split; [now apply top_terms_of_ok|]. split; [exact Hrank|]. split.
  - destruct (cluster_analysis_report_2 df Hlab) as (terms & Hrun & Hterms).
    eexists. exists terms. split; [exact Hrun|].
    split; [now apply Hterms|]. split.
    + right.
      apply (in_map (fun c => ClusteringTest2.report_line c
                   (top_terms_of sklearn_stop_words tfidf_mean argsort df c))
                    _ (-1)%Z).
      now apply sorted_unique_In.
    + intros r Hr Hc. cbn [ClusteringTest2.circle_marker popup].
      unfold dict_get. rewrite Hc, (Hterms _ Hnoise). reflexivity.
  - destruct (cluster_analysis_report_1 df Hlab) as (terms & Hrun & Hterms).
    eexists. exists terms. split; [exact Hrun|].
    split; [now apply Hterms|]. split.
    + right.
      apply (in_map (fun c => ClusteringTest.report_line c
                   (top_terms_of sklearn_stop_words tfidf_mean argsort df c))
                    _ (-1)%Z).
      now apply unique_In.
    + intros r Hr Hc. cbn [ClusteringTest.circle_marker popup].
      unfold dict_get. rewrite Hc, (Hterms _ Hnoise). reflexivity.
Qed.

(** C5.  clustering-test.py prints the clusters in the order in which their
    ids first appear in the frame, not in ascending order: when the first
    row belongs to a regular cluster and a noise row comes later, the line
    of that cluster is printed first and the line of cluster -1 after
    it. *)
Theorem report_order_is_first_appearance (df : dataframe) (c : Z)
  (later : list Z) :
  labelable sklearn_stop_words df = true ->
  map cluster df = c :: later ->
  (-1 < c)%Z ->
  In (-1)%Z later ->
  let top := top_terms_of sklearn_stop_words tfidf_mean argsort df in
  exists lines,
    fst (ClusteringTest.cluster_analysis sklearn_stop_words tfidf_mean
                                         argsort df)
    = "Cluster analysis:"
        :: ("Cluster " ++ str_of_id c ++ ": " ++ PyStr.join ", " (top c))
        :: lines
    /\ In ("Cluster -1: " ++ PyStr.join ", " (top (-1)%Z)) lines.
Proof.
  intros Hlab Hids Hc Hnoise top.
  destruct (cluster_analysis_report_1 df Hlab) as (terms & Hrun & _).
  rewrite Hrun, Hids. cbn [fst unique map].
  eexists. split; [reflexivity|].
  apply (in_map (fun c => ClusteringTest.report_line c (top c)) _ (-1)%Z).
  apply filter_In. split; [now apply unique_In|].
  apply negb_true_iff, Z.eqb_neq. lia.
Qed.

End ReportTheory.

Lemma report_order_witness :
  labelable SklearnStopWords.stop_words Samples.cluster_then_noise = true
  /\ map cluster Samples.cluster_then_noise = [0%Z; 0%Z; (-1)%Z]
  /\ (forall tfidf_mean,
         (exists lines,
             fst (ClusteringTest.cluster_analysis
                    SklearnStopWords.stop_words tfidf_mean
                    insertion_argsort Samples.cluster_then_noise)
             = "Cluster analysis:" :: "Cluster 0: granite" :: lines
             /\ In "Cluster -1: sandstone" lines)
         /\ fst (ClusteringTest.cluster_analysis
                   SklearnStopWords.stop_words tfidf_mean
                   insertion_argsort Samples.cluster_then_noise)
            = ["Cluster analysis:"; "Cluster 0: granite";
               "Cluster -1: sandstone"]
         /\ fst (ClusteringTest2.cluster_analysis
                   SklearnStopWords.stop_words tfidf_mean
                   insertion_argsort Samples.cluster_then_noise)
            = ["Cluster Analysis:"; "Cluster -1 => sandstone";
               "Cluster 0 => granite"]).
Proof.
  split; [reflexivity|]. split; [reflexivity|]. intros w.
  split; [|split; reflexivity].
  apply (report_order_is_first_appearance SklearnStopWords.stop_words w
           insertion_argsort Samples.cluster_then_noise 0%Z
           [0%Z; (-1)%Z]);
    [reflexivity|reflexivity|reflexivity|right; left; reflexivity].
Defined.

Lemma report_is_ascending_witness :
  labelable SklearnStopWords.stop_words Samples.two_clusters = true
  /\ map cluster Samples.two_clusters = [1%Z; 0%Z]
  /\ (forall tfidf_mean,
         exists ids,
           fst (ClusteringTest2.cluster_analysis SklearnStopWords.stop_words
                  tfidf_mean insertion_argsort Samples.two_clusters)
           = "Cluster Analysis:"
               :: map (fun c => ClusteringTest2.report_line c
                                  (top_terms_of SklearnStopWords.stop_words
                                     tfidf_mean insertion_argsort
                                     Samples.two_clusters c))
                      ids
           /\ StronglySorted Z.lt ids
           /\ (forall c, In c ids <-> In c [1%Z; 0%Z])).
Proof.
  split; [reflexivity|]. split; [reflexivity|]. intros w.
  exact (report_is_ascending_in_clustering_test_2
           SklearnStopWords.stop_words w insertion_argsort
           Samples.two_clusters eq_refl).
Defined.

Lemma cluster_analysis_raises_witness :
  In (-1)%Z (map cluster Samples.undescribed_noise)
  /\ (forall r, In r Samples.undescribed_noise -> cluster r = (-1)%Z ->
                cleaned_description r = "")
  /\ (forall tfidf_mean,
         snd (ClusteringTest2.cluster_analysis SklearnStopWords.stop_words
                tfidf_mean insertion_argsort Samples.undescribed_noise)
         = Raise empty_vocabulary
         /\ snd (ClusteringTest.cluster_analysis SklearnStopWords.stop_words
                   tfidf_mean insertion_argsort Samples.undescribed_noise)
            = Raise empty_vocabulary).
Proof.
  assert (Hin : In (-1)%Z (map cluster Samples.undescribed_noise)).
  { right. right. left. reflexivity. }
  assert (Hempty : forall r, In r Samples.undescribed_noise ->
                             cluster r = (-1)%Z ->
                             cleaned_description r = "").
  { intros r [<-|[<-|[<-|[]]]] Hc; try discriminate Hc. reflexivity. }
  split; [exact Hin|]. split; [exact Hempty|].
  intros w.
  exact (cluster_analysis_raises_on_empty_cluster
           SklearnStopWords.stop_words w insertion_argsort
           Samples.undescribed_noise (-1)%Z Hin Hempty).
Defined.

Lemma noise_cluster_witness :
  (forall scores, ascending_argsort insertion_argsort scores)
  /\ In (-1)%Z (map cluster Samples.noise_and_cluster)
  /\ labelable SklearnStopWords.stop_words Samples.noise_and_cluster = true
  /\ (forall tfidf_mean,
         get_top_tfidf_terms SklearnStopWords.stop_words tfidf_mean
                             insertion_argsort
           (cluster_texts Samples.noise_and_cluster (-1)) 10
         = Ok ["quartzite"]
         /\ exists printed cluster_terms,
             ClusteringTest2.cluster_analysis SklearnStopWords.stop_words
               tfidf_mean insertion_argsort Samples.noise_and_cluster
             = (printed, Ok cluster_terms)
             /\ dict_lookup (-1) cluster_terms = Some ["quartzite"]
             /\ In "Cluster -1 => quartzite" printed
             /\ forall r,
                 In r Samples.noise_and_cluster -> cluster r = (-1)%Z ->
                 popup (ClusteringTest2.circle_marker
                          (ClusteringTest2.cluster_color_map
                             Samples.noise_and_cluster)
                          cluster_terms r)
                 = newline ++ "        <b>Cluster:</b> -1<br>"
                   ++ newline ++ "        <b>Top Terms:</b> quartzite<br>"
                   ++ newline ++ "        <b>Description:</b> "
                   ++ str_of_description (description r)
                   ++ newline ++ "        ").
Proof.
  assert (Hin : In (-1)%Z (map cluster Samples.noise_and_cluster)).
  { left. reflexivity. }
  assert (Hlab : labelable SklearnStopWords.stop_words
                           Samples.noise_and_cluster = true)
    by reflexivity.
  split; [exact insertion_argsort_ascending|].
  split; [exact Hin|]. split; [exact Hlab|]. intros w.
  destruct (noise_cluster_is_summarised SklearnStopWords.stop_words w
              insertion_argsort Samples.noise_and_cluster
              insertion_argsort_ascending Hin Hlab)
    as (top & Htop & _
        & (printed & terms & Hrun & Hget & Hline & Hpopup) & _).
  assert (E : top = ["quartzite"]).
  { revert Htop. cbv. congruence. }
  subst top. split; [exact Htop|].
  exists printed, terms.
  split; [exact Hrun|]. split; [exact Hget|]. split; [exact Hline|].
  exact Hpopup.
Defined.

(** C10, the claim as written fails: with a noise record that has no
    description, cluster -1 is present and gets no summary; the analysis of
    clustering-test-2.py stops at it, first in the sorted order, after the
    header alone, and that of clustering-test.py stops at it too. *)
Lemma noise_without_words_is_not_summarised :
  map cluster Samples.undescribed_noise = [0%Z; 0%Z; (-1)%Z]
  /\ cluster_texts Samples.undescribed_noise (-1) = [""]
  /\ (forall tfidf_mean,
         ClusteringTest2.cluster_analysis SklearnStopWords.stop_words
           tfidf_mean insertion_argsort Samples.undescribed_noise
         = (["Cluster Analysis:"], Raise empty_vocabulary))
  /\ (forall tfidf_mean,
         snd (ClusteringTest.cluster_analysis SklearnStopWords.stop_words
                tfidf_mean insertion_argsort Samples.undescribed_noise)
         = Raise empty_vocabulary).
Proof.
  split; [reflexivity|]. split; [reflexivity|].
  split; intros w; [reflexivity|].
  apply (analysis_loop_raises_1 SklearnStopWords.stop_words w
           insertion_argsort Samples.undescribed_noise (-1)%Z);
    [reflexivity|right; left; reflexivity].
Qed.

(** * Colours *)

Section ColourTheory.

Lemma color_loop_spec (ids : list Z) :
  forall (k : nat) (m : dict string),
    NoDup ids ->
    (forall c, In c ids -> ~ In c (map fst m)) ->
    ClusteringTest2.color_loop k ids m
    = (m ++ map (fun '(i, c) => (c, palette_color i c))
                (combine (seq k (List.length ids)) ids))%list.
Proof.
  induction ids as [|c ids IH]; intros k m Hnd Hfresh.
  - simpl. now rewrite app_nil_r.
  - cbn [ClusteringTest2.color_loop List.length seq combine map].
    inversion Hnd as [|? ? Hnin Hnd']; subst.
    set (palette := ClusteringTest2.color_palette).
    assert (Hset : (if Z.eqb c (-1)
                    then dict_set c "gray" m
                    else dict_set c
                           (nth (k mod List.length palette) palette "") m)
                   = (m ++ [(c, palette_color k c)])%list).
    { unfold palette_color.
      destruct (Z.eqb c (-1)); apply dict_set_fresh, Hfresh; now left. }
    rewrite Hset, IH; [now rewrite <- app_assoc|exact Hnd'|].
    intros c' Hc'. rewrite map_app, in_app_iff. simpl.
    intros [H|[->|[]]]; [|contradiction].
    apply (Hfresh c'); [now right|exact H].
Qed.

(** C4, amended.  In clustering-test-2.py the distinct cluster ids are sorted
    ascending, -1 gets "gray", and every other id gets the palette colour at
    its position in that sorted list of all ids, modulo the palette size; the
    position counts -1 when it is present.  In clustering-test.py the colours
    are a fixed table for -1..6, and any other id gets "gray". *)
Theorem cluster_color_map_by_position (df : dataframe) :
  let ids := sorted (unique (map cluster df)) in
  ClusteringTest2.cluster_color_map df
  = map (fun '(i, c) => (c, palette_color i c))
        (combine (seq 0 (List.length ids)) ids)
  /\ StronglySorted Z.lt ids
  /\ (forall c, In c ids <-> In c (map cluster df))
  /\ (forall c, dict_get c "gray" ClusteringTest.colors = table_color c).
Proof.
  cbv zeta. split; [|split; [|split]].
  - unfold ClusteringTest2.cluster_color_map.
    rewrite color_loop_spec; [reflexivity|apply sorted_unique_NoDup|].
    intros c _ [].
  - apply sorted_unique_strict.
  - intros c. apply sorted_unique_In.
  - intros c. unfold table_color.
    destruct (Z.leb (-1) c && Z.leb c 6)%bool eqn:E.
    + apply andb_true_iff in E as [E1 E2].
      apply Z.leb_le in E1, E2.
      assert (H : (c = -1 \/ c = 0 \/ c = 1 \/ c = 2 \/ c = 3 \/ c = 4
                   \/ c = 5 \/ c = 6)%Z) by lia.
      repeat (destruct H as [->|H]; [reflexivity|]). now subst.
    + apply andb_false_iff in E. rewrite !Z.leb_gt in E.
      unfold dict_get, ClusteringTest.colors. cbn [dict_lookup].
      repeat (match goal with
              | |- context [Z.eqb ?a c] =>
                  destruct (Z.eqb_spec a c); [lia|]
              end).
      reflexivity.
Qed.

End ColourTheory.

(** C4, the claim as written fails: with a noise point present the first
    regular cluster gets the second palette colour, not the first. *)
Lemma noise_shifts_the_palette :
  map cluster Samples.noise_and_cluster = [(-1)%Z; 0%Z; 0%Z]
  /\ ClusteringTest2.cluster_color_map Samples.noise_and_cluster
     = [((-1)%Z, "gray"); (0%Z, "green")]
  /\ assign_colors ClusteringTest2.color_palette
                   (map cluster Samples.noise_and_cluster)
     = [((-1)%Z, "gray"); (0%Z, "blue")].
Proof. repeat split; reflexivity. Qed.

(** * Building the map *)

Section MapTheory.

Variable series_sum : list coordinate -> coordinate.


(** 1/10 is rounded to the binary64 nearest to it; halfway between two
    binary64 numbers the even significand wins; from 2^1024 on the result
    is an infinity, and below half the smallest positive number it is
    zero. *)
Example round_one_tenth :
  Binary64.round (1 # 10) = Finite (3602879701896397 # 36028797018963968).
Proof. vm_compute. reflexivity. Qed.

Example round_halfway :
  Binary64.round (inject_Z (2 ^ 53 + 1)) = Finite (inject_Z (2 ^ 53))
  /\ Binary64.round (inject_Z (2 ^ 53 + 3))
     = Finite (inject_Z (2 ^ 53 + 4)).
Proof. split; vm_compute; reflexivity. Qed.

Example round_out_of_range :
  Binary64.round (inject_Z (2 ^ 1024)) = Infinite true
  /\ Binary64.round (inject_Z (2 ^ 1024 - 2 ^ 970 - 1))
     = Finite (inject_Z (2 ^ 1024 - 2 ^ 971))
  /\ Binary64.round (1 # Z.to_pos (2 ^ 1076)) = Finite 0.
Proof. repeat split; vm_compute; reflexivity. Qed.





Lemma validate_location_ok (location : coordinate * coordinate) :
  is_nan (fst location) = false -> is_nan (snd location) = false ->
  validate_location location = Ok location.
Proof. unfold validate_location. intros -> ->. reflexivity. Qed.

(** Either folium accepts the location or it raises [nan_location]. *)
Lemma validate_location_cases (location : coordinate * coordinate) :
  validate_location location = Ok location
  \/ validate_location location = Raise nan_location.
Proof.
  unfold validate_location.
  destruct (is_nan (fst location) || is_nan (snd location))%bool; auto.
Qed.

(** The loop adds one marker per row, in order, when no location holds a
    NaN. *)
Lemma add_markers_ok (arguments : row -> marker) (rows : list row) :
  forall added,
    Forall (fun r => is_nan (fst (location (arguments r))) = false
                     /\ is_nan (snd (location (arguments r))) = false)
           rows ->
    add_markers arguments rows added
    = Ok (added ++ map arguments rows)%list.
Proof.
  induction rows as [|r rows IH]; intros added Hrows; simpl.
  - now rewrite app_nil_r.
  - inversion Hrows as [|? ? [Hlat Hlon] Hrows']; subst.
    rewrite validate_location_ok by assumption.
    rewrite IH by assumption. now rewrite <- app_assoc.
Qed.

(** It stops with folium's exception at the first row whose location holds
    a NaN. *)
Lemma add_markers_raises (arguments : row -> marker) (rows : list row) :
  forall added,
    Exists (fun r => (is_nan (fst (location (arguments r)))
                      || is_nan (snd (location (arguments r))))%bool = true)
           rows ->
    add_markers arguments rows added = Raise nan_location.
Proof.
  induction rows as [|r rows IH]; intros added Hrows; simpl.
  - inversion Hrows.
  - unfold validate_location.
    destruct (is_nan (fst (location (arguments r)))
              || is_nan (snd (location (arguments r))))%bool eqn:E;
      [reflexivity|].
    apply IH. inversion Hrows as [? ? H|? ? H]; subst;
      [congruence|exact H].
Qed.

(** Whatever it is given, the loop ends with the markers or with folium's
    exception. *)
Lemma add_markers_cases (arguments : row -> marker) (rows : list row) :
  forall added,
    add_markers arguments rows added
    = Ok (added ++ map arguments rows)%list
    \/ add_markers arguments rows added = Raise nan_location.
Proof.
  induction rows as [|r rows IH]; intros added; simpl.
  - left. now rewrite app_nil_r.
  - destruct (validate_location_cases (location (arguments r))) as [->| ->];
      [|now right].
    destruct (IH (added ++ [arguments r])%list) as [->| ->];
      [left|now right].
    now rewrite <- app_assoc.
Qed.


(** With a NaN in some row's location neither script gets a map: folium
    raises at the centre or at the first such row. *)
Lemma generate_cluster_map_raises_2 (cluster_terms : dict (list string))
  (df : dataframe) :
  Exists (fun r => (is_nan (latitude r) || is_nan (longitude r))%bool = true)
         df ->
  ClusteringTest2.generate_cluster_map series_sum cluster_terms df
  = Raise nan_location.
Proof.
  intros Hnan. unfold ClusteringTest2.generate_cluster_map.
  destruct (validate_location_cases
              (mean series_sum (map latitude df),
               mean series_sum (map longitude df))) as [->| ->];
    [|reflexivity].
  now rewrite add_markers_raises.
Qed.

Lemma generate_cluster_map_raises_1 (cluster_terms : dict (list string))
  (df : dataframe) :
  Exists (fun r => (is_nan (latitude r) || is_nan (longitude r))%bool = true)
         df ->
  ClusteringTest.generate_cluster_map series_sum cluster_terms df
  = Raise nan_location.
Proof.
  intros Hnan. unfold ClusteringTest.generate_cluster_map.
  destruct (validate_location_cases
              (mean series_sum (map latitude df),
               mean series_sum (map longitude df))) as [->| ->];
    [|reflexivity].
  now rewrite add_markers_raises.
Qed.

(** Without any NaN, in the rows or in the centre, both get the map with one
    marker per row. *)
Lemma generate_cluster_map_ok_2 (cluster_terms : dict (list string))
  (df : dataframe) :
  is_nan (mean series_sum (map latitude df)) = false ->
  is_nan (mean series_sum (map longitude df)) = false ->
  Forall (fun r => is_nan (latitude r) = false
                   /\ is_nan (longitude r) = false) df ->
  ClusteringTest2.generate_cluster_map series_sum cluster_terms df
  = Ok {| map_location := (mean series_sum (map latitude df),
                           mean series_sum (map longitude df));
          zoom_start := 5;
          markers := map (ClusteringTest2.circle_marker
                            (ClusteringTest2.cluster_color_map df)
                            cluster_terms) df |}.
Proof.
  intros Hlat Hlon Hrows. unfold ClusteringTest2.generate_cluster_map.
  rewrite validate_location_ok by assumption.
  now rewrite add_markers_ok by exact Hrows.
Qed.

Lemma generate_cluster_map_ok_1 (cluster_terms : dict (list string))
  (df : dataframe) :
  is_nan (mean series_sum (map latitude df)) = false ->
  is_nan (mean series_sum (map longitude df)) = false ->
  Forall (fun r => is_nan (latitude r) = false
                   /\ is_nan (longitude r) = false) df ->
  ClusteringTest.generate_cluster_map series_sum cluster_terms df
  = Ok {| map_location := (mean series_sum (map latitude df),
                           mean series_sum (map longitude df));
          zoom_start := 5;
          markers := map (ClusteringTest.circle_marker cluster_terms) df |}.
Proof.
  intros Hlat Hlon Hrows. unfold ClusteringTest.generate_cluster_map.
  rewrite validate_location_ok by assumption.
  now rewrite add_markers_ok by exact Hrows.
Qed.


End MapTheory.



(** * The analysis loops in closed form *)
Section ClosedForm.

Variable sklearn_stop_words : string -> bool.
Variable tfidf_mean : list (list nat) -> list nat -> Q.
Variable argsort : list Q -> list nat.

Lemma has_terms_spec (df : dataframe) (c : Z) :
  has_terms sklearn_stop_words df c = true <->
  vocabulary sklearn_stop_words (cluster_texts df c) <> [].
Proof.
  unfold has_terms.
  destruct (vocabulary sklearn_stop_words (cluster_texts df c));
    split; congruence.
Qed.

Lemma analysis_loop_closed_2 (df : dataframe) (ids : list Z) :
  NoDup ids ->
  (forall c, In c ids -> cluster_texts df c <> []) ->
  forall cluster_terms printed,
    (forall c, In c ids -> ~ In c (map fst cluster_terms)) ->
    ClusteringTest2.analysis_loop sklearn_stop_words tfidf_mean argsort
      df ids cluster_terms printed
    = ((printed
        ++ map (fun c => ClusteringTest2.report_line c
                           (top_terms_of sklearn_stop_words tfidf_mean
                                         argsort df c))
               (labelled_prefix sklearn_stop_words df ids))%list,
       if forallb (has_terms sklearn_stop_words df) ids
       then Ok (cluster_terms
                ++ map (fun c => (c, top_terms_of sklearn_stop_words
                                       tfidf_mean argsort df c)) ids)%list
       else Raise empty_vocabulary).
Proof.
  intros Hnd Hmem. induction ids as [|c ids IH]; intros terms printed Hfresh.
  - simpl. now rewrite !app_nil_r.
  - inversion Hnd as [|? ? Hnin Hnd']; subst.
    cbn [ClusteringTest2.analysis_loop labelled_prefix forallb map].
    destruct (Nat.eqb _ 0) eqn:Hlen.
    { apply length_zero_iff in Hlen. destruct (Hmem c); [now left|exact Hlen]. }
    destruct (has_terms sklearn_stop_words df c) eqn:Hc.
    + apply has_terms_spec in Hc. rewrite (top_terms_of_ok _ _ _ df c Hc).
      rewrite IH.
      * rewrite dict_set_fresh by (apply Hfresh; now left).
        cbn [andb map]. rewrite <- !app_assoc. reflexivity.
      * exact Hnd'.
      * intros c' Hc'. apply Hmem. now right.
      * intros c' Hc'. rewrite dict_set_fresh by (apply Hfresh; now left).
        rewrite map_app, in_app_iff. simpl.
        intros [H|[->|[]]]; [|contradiction].
        apply (Hfresh c'); [now right|exact H].
    + rewrite get_top_tfidf_terms_spec. unfold has_terms in Hc.
      destruct (vocabulary sklearn_stop_words (cluster_texts df c));
        [|discriminate].
      cbn [andb map]. now rewrite app_nil_r.
Qed.

Lemma analysis_loop_closed_1 (df : dataframe) (ids : list Z) :
  NoDup ids ->
  forall cluster_terms printed,
    (forall c, In c ids -> ~ In c (map fst cluster_terms)) ->
    ClusteringTest.analysis_loop sklearn_stop_words tfidf_mean argsort
      df ids cluster_terms printed
    = ((printed
        ++ map (fun c => ClusteringTest.report_line c
                           (top_terms_of sklearn_stop_words tfidf_mean
                                         argsort df c))
               (labelled_prefix sklearn_stop_words df ids))%list,
       if forallb (has_terms sklearn_stop_words df) ids
       then Ok (cluster_terms
                ++ map (fun c => (c, top_terms_of sklearn_stop_words
                                       tfidf_mean argsort df c)) ids)%list
       else Raise empty_vocabulary).
Proof.
  intros Hnd. induction ids as [|c ids IH]; intros terms printed Hfresh.
  - simpl. now rewrite !app_nil_r.
  - inversion Hnd as [|? ? Hnin Hnd']; subst.
    cbn [ClusteringTest.analysis_loop labelled_prefix forallb map].
    destruct (has_terms sklearn_stop_words df c) eqn:Hc.
    + apply has_terms_spec in Hc. rewrite (top_terms_of_ok _ _ _ df c Hc).
      rewrite IH.
      * rewrite dict_set_fresh by (apply Hfresh; now left).
        cbn [andb map]. rewrite <- !app_assoc. reflexivity.
      * exact Hnd'.
      * intros c' Hc'. rewrite dict_set_fresh by (apply Hfresh; now left).
        rewrite map_app, in_app_iff. simpl.
        intros [H|[->|[]]]; [|contradiction].
        apply (Hfresh c'); [now right|exact H].
    + rewrite get_top_tfidf_terms_spec. unfold has_terms in Hc.
      destruct (vocabulary sklearn_stop_words (cluster_texts df c));
        [|discriminate].
      cbn [andb map]. now rewrite app_nil_r.
Qed.

Lemma forallb_Permutation {A : Type} (p : A -> bool) (l l' : list A) :
  Permutation l l' -> forallb p l = forallb p l'.
Proof.
  induction 1 as [|x l l' _ IH|x y l|l l' l'' _ IH1 _ IH2]; simpl.
  - reflexivity.
  - now rewrite IH.
  - destruct (p x), (p y); reflexivity.
  - congruence.
Qed.

(** How the analysis of each script ends: with the dictionary when every
    cluster has a term, and otherwise with the vectorizer's exception;
    either way the header has been printed. *)
Lemma cluster_analysis_outcome_2 (df : dataframe) :
  exists lines,
    ClusteringTest2.cluster_analysis sklearn_stop_words tfidf_mean argsort df
    = ("Cluster Analysis:" :: lines,
       if labelable sklearn_stop_words df
       then Ok (map (fun c => (c, top_terms_of sklearn_stop_words
                                    tfidf_mean argsort df c))
                    (sorted (unique (map cluster df))))
       else Raise empty_vocabulary).
Proof.
  unfold ClusteringTest2.cluster_analysis.
  rewrite analysis_loop_closed_2; [|apply sorted_unique_NoDup| |].
  - eexists. cbn [app].
    rewrite (forallb_Permutation _ _ _ (sorted_perm _)). reflexivity.
  - intros c Hc. apply cluster_texts_member. now apply sorted_unique_In.
  - intros c _ [].
Qed.

Lemma cluster_analysis_outcome_1 (df : dataframe) :
  exists lines,
    ClusteringTest.cluster_analysis sklearn_stop_words tfidf_mean argsort df
    = ("Cluster analysis:" :: lines,
       if labelable sklearn_stop_words df
       then Ok (map (fun c => (c, top_terms_of sklearn_stop_words
                                    tfidf_mean argsort df c))
                    (unique (map cluster df)))
       else Raise empty_vocabulary).
Proof.
  unfold ClusteringTest.cluster_analysis.
  rewrite analysis_loop_closed_1; [|apply unique_NoDup|].
  - eexists. reflexivity.
  - intros c _ [].
Qed.

(** X2.  The whole analysis of clustering-test-2.py in closed form.  With the
    distinct cluster ids in ascending order, it prints the header and one
    line for each id up to, and not including, the first whose texts leave
    no term; if there is such an id it ends there with the vectorizer's
    exception, and otherwise [cluster_terms] holds exactly one entry per id,
    in that order, with the id's top terms. *)
Theorem cluster_analysis_closed_form_2 (df : dataframe) :
  let ids := sorted (unique (map cluster df)) in
  let top := top_terms_of sklearn_stop_words tfidf_mean argsort df in
  ClusteringTest2.cluster_analysis sklearn_stop_words tfidf_mean argsort df
  = ("Cluster Analysis:"
       :: map (fun c => ClusteringTest2.report_line c (top c))
              (labelled_prefix sklearn_stop_words df ids),
     if forallb (has_terms sklearn_stop_words df) ids
     then Ok (map (fun c => (c, top c)) ids)
     else Raise empty_vocabulary).
Proof.
  cbv zeta. unfold ClusteringTest2.cluster_analysis.
  rewrite analysis_loop_closed_2; [reflexivity|apply sorted_unique_NoDup| |].
  - intros c Hc. apply cluster_texts_member. now apply sorted_unique_In.
  - intros c _ [].
Qed.

(** X3.  The whole analysis of clustering-test.py in closed form: the same
    with the distinct ids in their order of first appearance in the frame. *)
Theorem cluster_analysis_closed_form_1 (df : dataframe) :
  let ids := unique (map cluster df) in
  let top := top_terms_of sklearn_stop_words tfidf_mean argsort df in
  ClusteringTest.cluster_analysis sklearn_stop_words tfidf_mean argsort df
  = ("Cluster analysis:"
       :: map (fun c => ClusteringTest.report_line c (top c))
              (labelled_prefix sklearn_stop_words df ids),
     if forallb (has_terms sklearn_stop_words df) ids
     then Ok (map (fun c => (c, top c)) ids)
     else Raise empty_vocabulary).
Proof.
  cbv zeta. unfold ClusteringTest.cluster_analysis.
  rewrite analysis_loop_closed_1; [reflexivity|apply unique_NoDup|].
  intros c _ [].
Qed.

End ClosedForm.

(** * Marker colours *)
Section MarkerColours.

Lemma position_of_spec (c : Z) (ids : list Z) :
  In c ids ->
  (position_of c ids < List.length ids)%nat
  /\ nth (position_of c ids) ids 0%Z = c.
Proof.
  induction ids as [|d ids IH]; intros Hin; [destruct Hin|].
  simpl. destruct (Z.eqb_spec d c) as [->|Hne].
  - split; [lia|reflexivity].
  - destruct Hin as [->|Hin]; [congruence|].
    destruct (IH Hin) as [Hlt Hnth]. split; [lia|exact Hnth].
Qed.

Lemma lookup_by_position {V : Type} (f : nat -> Z -> V) (c : Z)
  (ids : list Z) :
  In c ids ->
  forall k,
    dict_lookup c (map (fun '(i, d) => (d, f i d))
                       (combine (seq k (List.length ids)) ids))
    = Some (f (k + position_of c ids)%nat c).
Proof.
  induction ids as [|d ids IH]; intros Hin k; [destruct Hin|].
  simpl. destruct (Z.eqb_spec d c) as [->|Hne].
  - now rewrite Nat.add_0_r.
  - destruct Hin as [->|Hin]; [congruence|].
    rewrite (IH Hin (S k)). f_equal. f_equal. lia.
Qed.

(** clustering-test-2.py: the colour of a row's marker is the colour of the
    position of its cluster id among the sorted distinct ids; the "gray"
    default of [get] is never needed. *)
Lemma marker_color_2 (cluster_terms : dict (list string)) (df : dataframe)
  (r : row) :
  In r df ->
  let ids := sorted (unique (map cluster df)) in
  (position_of (cluster r) ids < List.length ids)%nat
  /\ nth (position_of (cluster r) ids) ids 0%Z = cluster r
  /\ color (ClusteringTest2.circle_marker
              (ClusteringTest2.cluster_color_map df) cluster_terms r)
     = palette_color (position_of (cluster r) ids) (cluster r).
Proof.
  intros Hr ids.
  assert (Hin : In (cluster r) ids).
  { apply sorted_unique_In. now apply in_map. }
  destruct (position_of_spec _ _ Hin) as [Hlt Hnth].
  split; [exact Hlt|]. split; [exact Hnth|].
  cbn [ClusteringTest2.circle_marker color]. unfold dict_get.
  unfold ClusteringTest2.cluster_color_map. fold ids.
  rewrite color_loop_spec;
    [|apply sorted_unique_NoDup|intros c _ []].
  cbn [app]. now rewrite (lookup_by_position palette_color _ _ Hin).
Qed.

Lemma color_palette_distinct :
  NoDup ClusteringTest2.color_palette
  /\ ~ In "gray" ClusteringTest2.color_palette.
Proof.
  split.
  - unfold ClusteringTest2.color_palette.
    repeat (constructor; [simpl; intuition discriminate|]). constructor.
  - simpl. intuition discriminate.
Qed.

Lemma palette_color_regular (i : nat) (c : Z) :
  c <> (-1)%Z -> (i < 10)%nat ->
  palette_color i c = nth i ClusteringTest2.color_palette ""
  /\ In (palette_color i c) ClusteringTest2.color_palette.
Proof.
  intros Hc Hi. unfold palette_color.
  destruct (Z.eqb_spec c (-1)) as [E|_]; [contradiction|].
  change (List.length ClusteringTest2.color_palette) with 10%nat.
  rewrite Nat.mod_small by exact Hi.
  split; [reflexivity|]. apply nth_In. exact Hi.
Qed.

(** X4.  clustering-test-2.py with at most ten distinct cluster ids, noise
    included: a marker is gray exactly when its row is noise, and two
    markers have the same colour exactly when their rows are in the same
    cluster. *)
Theorem marker_colors_tell_clusters_apart
  (cluster_terms : dict (list string)) (df : dataframe) (r1 r2 : row) :
  (List.length (unique (map cluster df)) <= 10)%nat ->
  In r1 df -> In r2 df ->
  let marker := ClusteringTest2.circle_marker
                  (ClusteringTest2.cluster_color_map df) cluster_terms in
  (color (marker r1) = "gray" <-> cluster r1 = (-1)%Z)
  /\ (color (marker r1) = color (marker r2) <-> cluster r1 = cluster r2).
Proof.
  intros Hlen H1 H2 marker. subst marker.
  destruct (marker_color_2 cluster_terms df r1 H1) as (Hlt1 & Hnth1 & Hc1).
  destruct (marker_color_2 cluster_terms df r2 H2) as (Hlt2 & Hnth2 & Hc2).
  rewrite (Permutation_length (sorted_perm _)) in Hlt1, Hlt2.
  set (ids := sorted (unique (map cluster df))) in *.
  set (p1 := position_of (cluster r1) ids) in *.
  set (p2 := position_of (cluster r2) ids) in *.
  destruct color_palette_distinct as [Hnd Hgray].
  assert (Hnoise : forall i, palette_color i (-1) = "gray") by reflexivity.
  rewrite Hc1, Hc2. split; split.
  - intros E. destruct (Z.eq_dec (cluster r1) (-1)) as [|Hne]; [assumption|].
    destruct (palette_color_regular p1 _ Hne) as [_ Hin]; [lia|].
    rewrite E in Hin. contradiction.
  - intros ->. apply Hnoise.
  - intros E.
    destruct (Z.eq_dec (cluster r1) (-1)) as [E1|Hne1];
      destruct (Z.eq_dec (cluster r2) (-1)) as [E2|Hne2].
    + congruence.
    + destruct (palette_color_regular p2 _ Hne2) as [_ Hin]; [lia|].
      rewrite <- E, E1, Hnoise in Hin. contradiction.
    + destruct (palette_color_regular p1 _ Hne1) as [_ Hin]; [lia|].
      rewrite E, E2, Hnoise in Hin. contradiction.
    + destruct (palette_color_regular p1 _ Hne1) as [E1 _]; [lia|].
      destruct (palette_color_regular p2 _ Hne2) as [E2 _]; [lia|].
      rewrite E1, E2 in E.
      assert (Hp : p1 = p2).
      { apply (proj1 (NoDup_nth _ "") Hnd); simpl; try lia. exact E. }
      rewrite <- Hnth1, <- Hnth2. now rewrite Hp.
  - intros E. subst p1 p2. now rewrite E.
Qed.

Lemma colors_get_table (c : Z) :
  dict_get c "gray" ClusteringTest.colors = table_color c.
Proof.
  unfold table_color.
  destruct (Z.leb (-1) c && Z.leb c 6)%bool eqn:E.
  - apply andb_true_iff in E as [E1 E2]. apply Z.leb_le in E1, E2.
    assert (H : (c = -1 \/ c = 0 \/ c = 1 \/ c = 2 \/ c = 3 \/ c = 4
                 \/ c = 5 \/ c = 6)%Z) by lia.
    repeat (destruct H as [->|H]; [reflexivity|]). now subst.
  - apply andb_false_iff in E. rewrite !Z.leb_gt in E.
    unfold dict_get, ClusteringTest.colors. cbn [dict_lookup].
    repeat (match goal with
            | |- context [Z.eqb ?a c] =>
                destruct (Z.eqb_spec a c); [lia|]
            end).
    reflexivity.
Qed.

Lemma table_color_cases (c : Z) :
  (off_table c = true /\ table_color c = "gray")
  \/ (off_table c = false
      /\ (c = 0 \/ c = 1 \/ c = 2 \/ c = 3 \/ c = 4 \/ c = 5 \/ c = 6)%Z).
Proof.
  unfold off_table.
  destruct (Z.leb 0 c && Z.leb c 6)%bool eqn:E; [right|left].
  - apply andb_true_iff in E as [E1 E2]. apply Z.leb_le in E1, E2.
    split; [reflexivity|lia].
  - split; [reflexivity|]. apply andb_false_iff in E.
    rewrite !Z.leb_gt in E. unfold table_color.
    destruct (Z.eq_dec c (-1)) as [->|Hne]; [reflexivity|].
    replace (Z.leb (-1) c && Z.leb c 6)%bool with false; [reflexivity|].
    symmetry. apply andb_false_iff. rewrite !Z.leb_gt. lia.
Qed.

(** X5.  clustering-test.py: a marker is gray exactly when its row's cluster
    id is not one of 0..6, so that the rows of a cluster 7 or higher look
    like noise; and two markers have the same colour exactly when their rows
    are in the same cluster or are both outside 0..6. *)
Theorem table_marker_colors (cluster_terms : dict (list string))
  (r1 r2 : row) :
  let marker := ClusteringTest.circle_marker cluster_terms in
  (color (marker r1) = "gray" <-> off_table (cluster r1) = true)
  /\ (color (marker r1) = color (marker r2)
      <-> cluster r1 = cluster r2
          \/ (off_table (cluster r1) = true
              /\ off_table (cluster r2) = true)).
Proof.
  cbv zeta. cbn [ClusteringTest.circle_marker color].
  rewrite !colors_get_table.
  destruct (table_color_cases (cluster r1)) as [[O1 G1]|[O1 H1]];
    destruct (table_color_cases (cluster r2)) as [[O2 G2]|[O2 H2]];
    rewrite ?O1, ?O2, ?G1, ?G2.
  - split; split; auto.
  - split; [split; auto|].
    repeat (destruct H2 as [H2|H2]); rewrite H2 in *;
      (split; [discriminate|]);
      (intros [E|[_ E]]; [rewrite E in O1; discriminate|discriminate]).
  - repeat (destruct H1 as [H1|H1]); rewrite H1 in *;
      (split; split; try discriminate;
       intros [E|[E _]];
       [rewrite <- E in O2; discriminate|discriminate]).
  - repeat (destruct H1 as [H1|H1]); rewrite H1;
      (split; [split; discriminate|]);
      repeat (destruct H2 as [H2|H2]); rewrite H2;
      (split; [try discriminate; auto
              |intros [E|[E _]]; [try discriminate E; reflexivity
                                 |discriminate]]).
Qed.

End MarkerColours.

(** * The terms [get_top_tfidf_terms] returns *)
Section ReturnedTerms.

Variable sklearn_stop_words : string -> bool.
Variable tfidf_mean : list (list nat) -> list nat -> Q.
Variable argsort : list Q -> list nat.

(** Every maximal run is made of word characters of the text. *)
Lemma word_runs_from_words (p : ascii -> bool) (s cur : string) :
  PyStr.all_chars p cur = true -> PyStr.all_chars p s = true ->
  PyStr.all_chars PyStr.is_word cur = true ->
  Forall (fun w => PyStr.all_chars PyStr.is_word w = true
                   /\ PyStr.all_chars p w = true)
         (word_runs_from cur s).
Proof.
  revert cur. induction s as [|c s IH]; intros cur Hcur Hs Hw; simpl.
  - destruct cur; simpl; constructor; auto.
  - simpl in Hs. apply andb_true_iff in Hs as [Hc Hs].
    destruct (PyStr.is_word c) eqn:E.
    + apply IH; auto.
      * rewrite PyStrFacts.all_chars_app. simpl. now rewrite Hcur, Hc.
      * rewrite PyStrFacts.all_chars_app. simpl. now rewrite Hw, E.
    + apply Forall_app. split.
      * destruct cur; simpl; constructor; auto.
      * apply IH; auto.
Qed.

Lemma analyze_tokens (doc t : string) :
  In t (analyze sklearn_stop_words doc) ->
  is_token t = true /\ sklearn_stop_words t = false.
Proof.
  unfold analyze, tokenize. intros Hin.
  apply filter_In in Hin as [Hin Hstop]. apply negb_true_iff in Hstop.
  apply filter_In in Hin as [Hin Hlen].
  split; [|exact Hstop]. unfold is_token. rewrite Hlen. simpl.
  pose proof (word_runs_from_words (fun c => negb (PyStr.isupper c))
                (PyStr.lower doc) "" eq_refl
                (PyStrFacts.lower_not_upper doc) eq_refl) as Hruns.
  rewrite Forall_forall in Hruns. destruct (Hruns t Hin) as [Hw Hl].
  now apply PyStrFacts.all_chars_and.
Qed.

(** X6.  Given an [argsort] that meets its contract, every term
    [get_top_tfidf_terms] returns is a token of two or more word characters,
    none upper case, that is not one of scikit-learn's stop words and that
    occurs in at least one of the texts: a one-letter word is never
    reported. *)
Theorem get_top_tfidf_terms_are_tokens (texts : list string) (n : nat) :
  (forall scores, ascending_argsort argsort scores) ->
  match get_top_tfidf_terms sklearn_stop_words tfidf_mean argsort texts n
  with
  | Raise e => e = empty_vocabulary
  | Ok terms =>
      Forall (fun t => is_token t = true
                       /\ sklearn_stop_words t = false
                       /\ exists doc,
                            In doc texts
                            /\ In t (analyze sklearn_stop_words doc))
             terms
  end.
Proof.
  intros Hargsort. rewrite get_top_tfidf_terms_spec.
  destruct (vocabulary sklearn_stop_words texts) as [|t0 names] eqn:V;
    [reflexivity|].
  rewrite <- V.
  destruct (Hargsort (scores_of sklearn_stop_words tfidf_mean texts))
    as [Hperm Hsorted].
  destruct (top_terms_order sklearn_stop_words tfidf_mean argsort
              _ (fun _ _ => True) texts n Hperm Hsorted)
    as (_ & Hincl & _); [trivial|].
  apply Forall_forall. intros t Ht. apply Hincl in Ht.
  apply vocabulary_In in Ht as (doc & Hdoc & Hin).
  destruct (analyze_tokens doc t Hin) as [Htok Hstop].
  split; [exact Htok|]. split; [exact Hstop|]. now exists doc.
Qed.


End ReturnedTerms.

(** * Every row is analysed once *)
Section Partition.

Lemma concat_insert_once {A : Type} (x : A) (f : Z -> list A) (k : Z)
  (ids : list Z) :
  NoDup ids -> In k ids ->
  Permutation
    (List.concat (map (fun c => if Z.eqb k c then x :: f c else f c) ids))
    (x :: List.concat (map f ids)).
Proof.
  induction ids as [|d ids IH]; intros Hnd Hin; [destruct Hin|].
  inversion Hnd as [|? ? Hnin Hnd']; subst. simpl.
  destruct (Z.eqb_spec k d) as [->|Hne].
  - simpl. constructor. apply Permutation_app_head.
    replace (map (fun c => if Z.eqb d c then x :: f c else f c) ids)
      with (map f ids); [reflexivity|].
    apply map_ext_in. intros c Hc.
    destruct (Z.eqb_spec d c) as [->|_]; [contradiction|reflexivity].
  - destruct Hin as [->|Hin]; [congruence|].
    etransitivity; [apply Permutation_app_head, IH; assumption|].
    symmetry. apply Permutation_middle.
Qed.

Lemma cluster_texts_cons (r : row) (df : dataframe) (c : Z) :
  cluster_texts (r :: df) c
  = if Z.eqb (cluster r) c
    then cleaned_description r :: cluster_texts df c
    else cluster_texts df c.
Proof.
  unfold cluster_texts. simpl. now destruct (Z.eqb (cluster r) c).
Qed.

Lemma cluster_texts_partition (df : dataframe) (ids : list Z) :
  NoDup ids ->
  (forall r, In r df -> In (cluster r) ids) ->
  Permutation (List.concat (map (cluster_texts df) ids))
              (map cleaned_description df).
Proof.
  intros Hnd. induction df as [|r df IH]; intros Hall.
  - replace (map (cluster_texts []) ids)
      with (map (fun _ : Z => @nil string) ids) by reflexivity.
    clear. induction ids as [|d ids IH]; simpl; [reflexivity|exact IH].
  - replace (map (cluster_texts (r :: df)) ids)
      with (map (fun c => if Z.eqb (cluster r) c
                          then cleaned_description r :: cluster_texts df c
                          else cluster_texts df c) ids)
      by (apply map_ext; intros c; now rewrite cluster_texts_cons).
    rewrite concat_insert_once; [|exact Hnd|apply Hall; now left].
    simpl. constructor. apply IH. intros r' Hr'. apply Hall. now right.
Qed.

(** X8.  The selections the loops of both scripts make partition the frame:
    the texts of the clusters, taken over the distinct cluster ids (sorted
    or not), are together a rearrangement of the [cleaned_description]
    column. *)
Theorem every_row_in_one_cluster (df : dataframe) :
  Permutation
    (List.concat (map (cluster_texts df) (sorted (unique (map cluster df)))))
    (map cleaned_description df)
  /\ Permutation
       (List.concat (map (cluster_texts df) (unique (map cluster df))))
       (map cleaned_description df).
Proof.
  split; apply cluster_texts_partition.
  - apply sorted_unique_NoDup.
  - intros r Hr. apply sorted_unique_In. now apply in_map.
  - apply unique_NoDup.
  - intros r Hr. apply unique_In. now apply in_map.
Qed.

End Partition.

(** * Cleaning works word by word *)
Section WordByWord.

Variable lemmatize : string -> string.
Variable stop_words : string -> bool.

Lemma lower_app (a b : string) :
  PyStr.lower (a ++ b) = PyStr.lower a ++ PyStr.lower b.
Proof. induction a as [|c a IH]; simpl; congruence. Qed.

Lemma strip_punctuation_app (a b : string) :
  PyStr.strip_punctuation (a ++ b)
  = PyStr.strip_punctuation a ++ PyStr.strip_punctuation b.
Proof.
  induction a as [|c a IH]; simpl; [reflexivity|].
  destruct (PyStr.is_word c || PyStr.isspace c)%bool; simpl; congruence.
Qed.

Lemma split_from_space (a b cur : string) :
  PyStr.split_from cur (a ++ " " ++ b)
  = (PyStr.split_from cur a ++ PyStr.split b)%list.
Proof.
  revert cur. induction a as [|c a IH]; intros cur; simpl.
  - reflexivity.
  - destruct (PyStr.isspace c).
    + rewrite IH. now rewrite app_assoc.
    + apply IH.
Qed.

Lemma surviving_words_space (a b : string) :
  surviving_words stop_words (a ++ " " ++ b)
  = (surviving_words stop_words a ++ surviving_words stop_words b)%list.
Proof.
  unfold surviving_words, keep_words.
  rewrite !lower_app, !strip_punctuation_app.
  change (PyStr.strip_punctuation (PyStr.lower " ")) with " ".
  unfold PyStr.split at 1. rewrite split_from_space.
  now rewrite filter_app.
Qed.

(** X9.  Cleaning works word by word: the cleaned text of two descriptions
    joined by a space is the cleaned words of the first followed by the
    cleaned words of the second. *)
Theorem preprocess_text_of_joined (a b : string) :
  preprocess_text lemmatize stop_words (Some (a ++ " " ++ b))
  = PyStr.join " "
      (map lemmatize (surviving_words stop_words a)
       ++ map lemmatize (surviving_words stop_words b))%list.
Proof.
  change (preprocess_text lemmatize stop_words (Some (a ++ " " ++ b)))
    with (PyStr.join " "
            (map lemmatize (surviving_words stop_words (a ++ " " ++ b)))).
  now rewrite surviving_words_space, map_app.
Qed.

End WordByWord.

(** * From the CSV rows to the markers *)
Section RowsToMarkers.

Variable lemmatize : string -> string.
Variable stop_words : string -> bool.
Variable sklearn_stop_words : string -> bool.
Variable tfidf_mean : list (list nat) -> list nat -> Q.
Variable argsort : list Q -> list nat.
Variable vector : Type.
Variable encode : list string -> list vector.
Variable fit_predict : list vector -> list Z.
Variable series_sum : list coordinate -> coordinate.

Lemma with_columns_In (rows : list csv_row) (texts : list string)
  (labels : list Z) (r : row) :
  In r (with_columns rows texts labels) ->
  In (cleaned_description r) texts /\ In (cluster r) labels.
Proof.
  unfold with_columns. intros Hin.
  apply in_map_iff in Hin as ([x [t l]] & <- & Hin).
  apply in_combine_r in Hin. simpl. split.
  - now apply in_combine_l in Hin.
  - now apply in_combine_r in Hin.
Qed.

Lemma with_columns_coordinates (rows : list csv_row) :
  forall (texts : list string) (labels : list Z),
    List.length texts = List.length rows ->
    List.length labels = List.length rows ->
    map (fun r => (latitude r, longitude r))
        (with_columns rows texts labels)
    = map (fun r => (csv_latitude r, csv_longitude r)) rows.
Proof.
  unfold with_columns.
  induction rows as [|x rows IH]; intros texts labels Ht Hl;
    [reflexivity|].
  destruct texts as [|t texts]; [discriminate|].
  destruct labels as [|l labels]; [discriminate|].
  simpl in *. f_equal. apply IH; congruence.
Qed.

Lemma cleaned_without_survivor (rows : list csv_row) :
  forallb (fun r => no_survivor stop_words (csv_description r)) rows = true ->
  Forall (fun text => text = "")
         (map (fun r => preprocess_text lemmatize stop_words
                          (csv_description r)) rows).
Proof.
  rewrite forallb_forall. intros H. apply Forall_forall.
  intros text Hin. apply in_map_iff in Hin as (r & <- & Hr).
  specialize (H r Hr). unfold no_survivor in H.
  destruct (csv_description r) as [d|]; [|reflexivity].
  unfold preprocess_text. fold (surviving_words stop_words d).
  destruct (surviving_words stop_words d); [reflexivity|discriminate].
Qed.

Lemma frame_without_survivor (rows : list csv_row) (labels : list Z) :
  rows <> [] ->
  forallb (fun r => no_survivor stop_words (csv_description r)) rows = true ->
  List.length labels = List.length rows ->
  let df := with_columns rows
              (map (fun r => preprocess_text lemmatize stop_words
                               (csv_description r)) rows) labels in
  exists c, In c (map cluster df)
            /\ forall r, In r df -> cleaned_description r = "".
Proof.
  intros Hne Hnone Hlen df.
  assert (Hall : forall r, In r df -> cleaned_description r = "").
  { intros r Hr. apply with_columns_In in Hr as [Hr _].
    pose proof (cleaned_without_survivor rows Hnone) as Hc.
    rewrite Forall_forall in Hc. now apply Hc. }
  destruct rows as [|x rows]; [congruence|].
  destruct labels as [|l labels]; [discriminate|].
  exists l. split; [now left|exact Hall].
Qed.

(** X10.  A CSV in which no description keeps a word (each is missing, or
    holds only stop words and punctuation) cannot be analysed: whatever
    labels the clusterer gives the rows, both scripts end with the
    vectorizer's exception and build no map. *)
Theorem run_raises_without_descriptions (rows : list csv_row) :
  rows <> [] ->
  forallb (fun r => no_survivor stop_words (csv_description r)) rows = true ->
  List.length (fit_predict
                 (encode (map (fun r => preprocess_text lemmatize stop_words
                                          (csv_description r)) rows)))
  = List.length rows ->
  snd (ClusteringTest2.run lemmatize stop_words sklearn_stop_words
         tfidf_mean argsort vector encode fit_predict series_sum rows)
  = Raise empty_vocabulary
  /\ snd (ClusteringTest.run lemmatize stop_words sklearn_stop_words
            tfidf_mean argsort vector encode fit_predict series_sum rows)
     = Raise empty_vocabulary.
Proof.
  intros Hne Hnone Hlen.
  destruct (frame_without_survivor rows _ Hne Hnone Hlen)
    as (c & Hc & Hall).
  set (df := with_columns _ _ _) in *.
  assert (Hvoc : vocabulary sklearn_stop_words (cluster_texts df c) = []).
  { apply cluster_texts_all_empty. intros r Hr _. now apply Hall. }
  assert (H2 : snd (ClusteringTest2.cluster_analysis sklearn_stop_words
                      tfidf_mean argsort df) = Raise empty_vocabulary).
  { apply (analysis_loop_raises_2 _ _ _ df c);
      [now apply cluster_texts_member|exact Hvoc|].
    now apply sorted_unique_In. }
  assert (H1 : snd (ClusteringTest.cluster_analysis sklearn_stop_words
                      tfidf_mean argsort df) = Raise empty_vocabulary).
  { apply (analysis_loop_raises_1 _ _ _ df c); [exact Hvoc|].
    now apply unique_In. }
  unfold ClusteringTest2.run, ClusteringTest.run.
  change (ClusteringTest2.clustered lemmatize stop_words vector encode
            fit_predict rows) with df.
  change (ClusteringTest.clustered lemmatize stop_words vector encode
            fit_predict rows) with df.
  destruct (ClusteringTest2.cluster_analysis _ _ _ df) as [p2 [t2|e2]];
    destruct (ClusteringTest.cluster_analysis _ _ _ df) as [p1 [t1|e1]];
    simpl in *; try discriminate; split; congruence.
Qed.

Lemma with_columns_nan (rows : list csv_row) :
  forall (texts : list string) (labels : list Z),
    List.length texts = List.length rows ->
    List.length labels = List.length rows ->
    existsb (fun r => (is_nan (latitude r) || is_nan (longitude r))%bool)
            (with_columns rows texts labels)
    = existsb without_location rows.
Proof.
  unfold with_columns.
  induction rows as [|x rows IH]; intros texts labels Ht Hl;
    [reflexivity|].
  destruct texts as [|t texts]; [discriminate|].
  destruct labels as [|l labels]; [discriminate|].
  simpl in *. f_equal. apply IH; congruence.
Qed.

Lemma existsb_false_Forall {A : Type} (p : A -> bool) (l : list A) :
  existsb p l = false -> Forall (fun x => p x = false) l.
Proof.
  induction l as [|x l IH]; simpl; [constructor|].
  rewrite orb_false_iff. intros [Hx Hl]. constructor; auto.
Qed.

Lemma existsb_true_Exists {A : Type} (p : A -> bool) (l : list A) :
  existsb p l = true -> Exists (fun x => p x = true) l.
Proof.
  intros H. apply existsb_exists in H. now apply Exists_exists.
Qed.

(** C2, amended.  Nothing validates the coordinates before the embedding.
    When some row has a NaN for latitude or longitude and the clusterer
    returns one label per row, both scripts first send the cleaned
    description of every row, that one included, to the encoder, run the
    clusterer and print the header of the report and the lines the
    analysis reaches; they end with a [ValueError] and without a map: the
    vectorizer's when some cluster has no term, and otherwise folium's,
    raised when the map is built. *)
Theorem run_embeds_every_row (rows : list csv_row) :
  existsb without_location rows = true ->
  List.length (fit_predict
                 (encode (map (fun r => preprocess_text lemmatize stop_words
                                          (csv_description r)) rows)))
  = List.length rows ->
  let texts :=
    map (fun r => preprocess_text lemmatize stop_words (csv_description r))
        rows in
  let df := with_columns rows texts (fit_predict (encode texts)) in
  let outcome : result folium_map :=
    Raise (if labelable sklearn_stop_words df
           then nan_location else empty_vocabulary) in
  (exists lines,
      ClusteringTest2.run lemmatize stop_words sklearn_stop_words
        tfidf_mean argsort vector encode fit_predict series_sum rows
      = (Encode texts :: FitPredict (List.length (encode texts))
           :: Print "Cluster Analysis:" :: map Print lines,
         outcome))
  /\ (exists lines,
         ClusteringTest.run lemmatize stop_words sklearn_stop_words
           tfidf_mean argsort vector encode fit_predict series_sum rows
         = (Encode texts :: FitPredict (List.length (encode texts))
              :: Print "Cluster analysis:" :: map Print lines,
            outcome)).
Proof.
  intros Hnan Hlen texts df outcome.
  assert (Hrow : Exists (fun r => (is_nan (latitude r)
                                   || is_nan (longitude r))%bool = true) df).
  { apply existsb_true_Exists. unfold df.
    rewrite with_columns_nan;
      [exact Hnan|apply length_map|exact Hlen]. }
  unfold ClusteringTest2.run, ClusteringTest.run.
  change (ClusteringTest2.clustered lemmatize stop_words vector encode
            fit_predict rows) with df.
  change (ClusteringTest.clustered lemmatize stop_words vector encode
            fit_predict rows) with df.
  destruct (cluster_analysis_outcome_2 sklearn_stop_words tfidf_mean
              argsort df) as (lines2 & ->).
  destruct (cluster_analysis_outcome_1 sklearn_stop_words tfidf_mean
              argsort df) as (lines1 & ->).
  subst outcome. destruct (labelable sklearn_stop_words df).
  - rewrite generate_cluster_map_raises_2, generate_cluster_map_raises_1
      by exact Hrow.
    split; eexists; reflexivity.
  - split; eexists; reflexivity.
Qed.

(** X11.  When the clusterer returns one label per row, no row has a NaN
    for latitude or longitude and neither mean is a NaN, each script either
    ends with the vectorizer's exception or builds a map with exactly one
    marker per CSV row, in the order of the rows, placed at that row's
    latitude and longitude as read (nothing is dropped, merged or
    reordered). *)
Theorem run_places_one_marker_per_row (rows : list csv_row) :
  List.length (fit_predict
                 (encode (map (fun r => preprocess_text lemmatize stop_words
                                          (csv_description r)) rows)))
  = List.length rows ->
  existsb without_location rows = false ->
  is_nan (mean series_sum (map csv_latitude rows)) = false ->
  is_nan (mean series_sum (map csv_longitude rows)) = false ->
  let places := map (fun r => (csv_latitude r, csv_longitude r)) rows in
  match snd (ClusteringTest2.run lemmatize stop_words sklearn_stop_words
               tfidf_mean argsort vector encode fit_predict series_sum rows)
  with
  | Ok m => map location (markers m) = places
  | Raise e => e = empty_vocabulary
  end
  /\ match snd (ClusteringTest.run lemmatize stop_words sklearn_stop_words
                  tfidf_mean argsort vector encode fit_predict series_sum
                  rows)
     with
     | Ok m => map location (markers m) = places
     | Raise e => e = empty_vocabulary
     end.
Proof.
  intros Hlen Hrows Hlat Hlon places.
  set (texts := map (fun r => preprocess_text lemmatize stop_words
                                (csv_description r)) rows) in *.
  set (df := with_columns rows texts (fit_predict (encode texts))).
  pose proof (with_columns_coordinates rows texts
                (fit_predict (encode texts)) (length_map _ _) Hlen)
    as Hplaces.
  fold df in Hplaces.
  assert (Hfst : map latitude df = map csv_latitude rows).
  { apply (f_equal (map fst)) in Hplaces.
    now rewrite !map_map in Hplaces. }
  assert (Hsnd : map longitude df = map csv_longitude rows).
  { apply (f_equal (map snd)) in Hplaces.
    now rewrite !map_map in Hplaces. }
  assert (Hok : Forall (fun r => is_nan (latitude r) = false
                                 /\ is_nan (longitude r) = false) df).
  { assert (H : existsb (fun r => (is_nan (latitude r)
                                   || is_nan (longitude r))%bool) df
                = false).
    { unfold df. rewrite with_columns_nan;
        [exact Hrows|apply length_map|exact Hlen]. }
    apply existsb_false_Forall in H.
    eapply Forall_impl; [|exact H]. cbv beta. intros r Hr.
    now apply orb_false_iff in Hr. }
  unfold ClusteringTest2.run, ClusteringTest.run.
  change (ClusteringTest2.clustered lemmatize stop_words vector encode
            fit_predict rows) with df.
  change (ClusteringTest.clustered lemmatize stop_words vector encode
            fit_predict rows) with df.
  destruct (cluster_analysis_outcome_2 sklearn_stop_words tfidf_mean
              argsort df) as (lines2 & ->).
  destruct (cluster_analysis_outcome_1 sklearn_stop_words tfidf_mean
              argsort df) as (lines1 & ->).
  destruct (labelable sklearn_stop_words df); [|split; reflexivity].
  rewrite generate_cluster_map_ok_2, generate_cluster_map_ok_1
    by (rewrite ?Hfst, ?Hsnd; assumption).
  cbn [snd markers]. rewrite !map_map. split; exact Hplaces.
Qed.

End RowsToMarkers.

(** * Instances *)

Lemma marker_colors_witness :
  (List.length (unique (map cluster Samples.noise_and_cluster)) <= 10)%nat
  /\ (forall cluster_terms r1 r2,
         In r1 Samples.noise_and_cluster ->
         In r2 Samples.noise_and_cluster ->
         let marker :=
           ClusteringTest2.circle_marker
             (ClusteringTest2.cluster_color_map Samples.noise_and_cluster)
             cluster_terms in
         (color (marker r1) = "gray" <-> cluster r1 = (-1)%Z)
         /\ (color (marker r1) = color (marker r2)
             <-> cluster r1 = cluster r2)).
Proof.
  assert (Hlen : (List.length (unique (map cluster Samples.noise_and_cluster))
                  <= 10)%nat) by (vm_compute; lia).
  split; [exact Hlen|]. intros terms r1 r2 H1 H2.
  exact (marker_colors_tell_clusters_apart terms Samples.noise_and_cluster
           r1 r2 Hlen H1 H2).
Defined.

Lemma get_top_tfidf_terms_are_tokens_witness :
  (forall scores, ascending_argsort insertion_argsort scores)
  /\ (forall tfidf_mean,
         match get_top_tfidf_terms SklearnStopWords.stop_words tfidf_mean
                 insertion_argsort ["a granite boulder"; "the boulder"] 10
         with
         | Raise e => e = empty_vocabulary
         | Ok terms =>
             Forall (fun t =>
                       is_token t = true
                       /\ SklearnStopWords.stop_words t = false
                       /\ exists doc,
                            In doc ["a granite boulder"; "the boulder"]
                            /\ In t (analyze SklearnStopWords.stop_words doc))
                    terms
         end).
Proof.
  split; [exact insertion_argsort_ascending|]. intros w.
  exact (get_top_tfidf_terms_are_tokens SklearnStopWords.stop_words w
           insertion_argsort ["a granite boulder"; "the boulder"] 10
           insertion_argsort_ascending).
Defined.


Lemma run_raises_without_descriptions_witness :
  rows_without_words <> []
  /\ forallb (fun r => no_survivor Dictionaries.stop_words
                         (csv_description r)) rows_without_words = true
  /\ (forall sklearn_stop_words tfidf_mean argsort series_sum,
         snd (ClusteringTest2.run Dictionaries.lemmatize
                Dictionaries.stop_words sklearn_stop_words tfidf_mean
                argsort unit StandIns.encode StandIns.fit_predict
                series_sum rows_without_words)
         = Raise empty_vocabulary
         /\ snd (ClusteringTest.run Dictionaries.lemmatize
                   Dictionaries.stop_words sklearn_stop_words tfidf_mean
                   argsort unit StandIns.encode StandIns.fit_predict
                   series_sum rows_without_words)
            = Raise empty_vocabulary).
Proof.
  assert (Hne : rows_without_words <> []) by discriminate.
  split; [exact Hne|]. split; [reflexivity|]. intros sk w argsort total.
  exact (run_raises_without_descriptions Dictionaries.lemmatize
           Dictionaries.stop_words sk w argsort unit StandIns.encode
           StandIns.fit_predict total rows_without_words Hne eq_refl
           eq_refl).
Defined.

Lemma run_places_markers_witness :
  List.length
    (StandIns.fit_predict
       (StandIns.encode
          (map (fun r => Dictionaries.preprocess_text (csv_description r))
               two_granites)))
  = List.length two_granites
  /\ existsb without_location two_granites = false
  /\ mean Binary64.sequential_sum (map csv_latitude two_granites)
     = Finite 20
  /\ mean Binary64.sequential_sum (map csv_longitude two_granites)
     = Finite 30
  /\ (forall tfidf_mean,
         match snd (ClusteringTest2.run Dictionaries.lemmatize
                      Dictionaries.stop_words SklearnStopWords.stop_words
                      tfidf_mean insertion_argsort unit StandIns.encode
                      StandIns.fit_predict Binary64.sequential_sum
                      two_granites) with
         | Ok m =>
             map location (markers m)
             = [(Finite 10, Finite 20); (Finite 30, Finite 40)]
         | Raise e => e = empty_vocabulary
         end).
Proof.
  split; [reflexivity|]. split; [reflexivity|].
  split; [reflexivity|]. split; [reflexivity|]. intros w.
  exact (proj1 (run_places_one_marker_per_row Dictionaries.lemmatize
                  Dictionaries.stop_words SklearnStopWords.stop_words w
                  insertion_argsort unit StandIns.encode
                  StandIns.fit_predict Binary64.sequential_sum
                  two_granites eq_refl eq_refl eq_refl eq_refl)).
Defined.

Lemma run_embeds_every_row_witness :
  existsb without_location missing_latitude = true
  /\ (forall tfidf_mean series_sum,
         exists lines,
           ClusteringTest2.run Dictionaries.lemmatize
             Dictionaries.stop_words SklearnStopWords.stop_words
             tfidf_mean insertion_argsort unit StandIns.encode
             StandIns.fit_predict series_sum missing_latitude
           = (Encode ["granite"; "granite"] :: FitPredict 2
                :: Print "Cluster Analysis:" :: map Print lines,
              Raise nan_location)).
Proof.
  split; [reflexivity|]. intros w total.
  exact (proj1 (run_embeds_every_row Dictionaries.lemmatize
                  Dictionaries.stop_words SklearnStopWords.stop_words w
                  insertion_argsort unit StandIns.encode
                  StandIns.fit_predict total missing_latitude
                  eq_refl eq_refl)).
Defined.

(** C2, the claim as written fails: a row without latitude does not stop the
    run before the embedding.  Its description is cleaned and sent to the
    encoder with the other, the clusterer runs and the report is printed;
    only then, when the map is built, does folium refuse the NaN. *)
Lemma run_embeds_row_without_latitude :
  map csv_latitude missing_latitude = [NaN; Finite 46]
  /\ (forall tfidf_mean series_sum,
         ClusteringTest2.run Dictionaries.lemmatize
           Dictionaries.stop_words SklearnStopWords.stop_words
           tfidf_mean insertion_argsort unit StandIns.encode
           StandIns.fit_predict series_sum missing_latitude
         = ([Encode ["granite"; "granite"]; FitPredict 2;
             Print "Cluster Analysis:"; Print "Cluster 0 => granite"],
            Raise nan_location))
  /\ (forall tfidf_mean series_sum,
         ClusteringTest.run Dictionaries.lemmatize
           Dictionaries.stop_words SklearnStopWords.stop_words
           tfidf_mean insertion_argsort unit StandIns.encode
           StandIns.fit_predict series_sum missing_latitude
         = ([Encode ["granite"; "granite"]; FitPredict 2;
             Print "Cluster analysis:"; Print "Cluster 0: granite"],
            Raise nan_location)).
Proof.
  split; [reflexivity|]. split; intros w total.
  - unfold ClusteringTest2.run.
    change (ClusteringTest2.cluster_analysis SklearnStopWords.stop_words
              w insertion_argsort
              (ClusteringTest2.clustered Dictionaries.lemmatize
                 Dictionaries.stop_words unit StandIns.encode
                 StandIns.fit_predict missing_latitude))
      with (["Cluster Analysis:"; "Cluster 0 => granite"],
            @Ok (dict (list string)) [(0%Z, ["granite"])]).
    cbv iota. f_equal.
    apply generate_cluster_map_raises_2. apply Exists_cons_hd. reflexivity.
  - unfold ClusteringTest.run.
    change (ClusteringTest.cluster_analysis SklearnStopWords.stop_words
              w insertion_argsort
              (ClusteringTest.clustered Dictionaries.lemmatize
                 Dictionaries.stop_words unit StandIns.encode
                 StandIns.fit_predict missing_latitude))
      with (["Cluster analysis:"; "Cluster 0: granite"],
            @Ok (dict (list string)) [(0%Z, ["granite"])]).
    cbv iota. f_equal.
    apply generate_cluster_map_raises_1. apply Exists_cons_hd. reflexivity.
Qed.

(** * Popups and the cycling palette *)
Section PopupsAndCycle.

Variable sklearn_stop_words : string -> bool.
Variable tfidf_mean : list (list nat) -> list nat -> Q.
Variable argsort : list Q -> list nat.

(** X12.  When every cluster has a term and [argsort] meets its contract,
    the analysis of each script goes through and stores, for the cluster of
    any row, the ten best terms of that cluster's texts (at least one); the
    lookup behind the row's popup finds them, so the empty default of
    [cluster_terms.get] is never used, and the popup reads the row's cluster
    id, these terms joined by commas, and the row's description. *)
Theorem popups_show_cluster_terms (df : dataframe) (r : row) :
  (forall scores, ascending_argsort argsort scores) ->
  labelable sklearn_stop_words df = true ->
  In r df ->
  exists top_terms,
    get_top_tfidf_terms sklearn_stop_words tfidf_mean argsort
                        (cluster_texts df (cluster r)) 10 = Ok top_terms
    /\ top_ranking sklearn_stop_words tfidf_mean
                   (cluster_texts df (cluster r)) 10 top_terms
    /\ (exists printed cluster_terms,
           ClusteringTest2.cluster_analysis sklearn_stop_words tfidf_mean
                                            argsort df
           = (printed, Ok cluster_terms)
           /\ dict_lookup (cluster r) cluster_terms = Some top_terms
           /\ popup (ClusteringTest2.circle_marker
                       (ClusteringTest2.cluster_color_map df)
                       cluster_terms r)
              = newline ++ "        <b>Cluster:</b> "
                ++ str_of_id (cluster r) ++ "<br>"
                ++ newline ++ "        <b>Top Terms:</b> "
                ++ PyStr.join ", " top_terms ++ "<br>"
                ++ newline ++ "        <b>Description:</b> "
                ++ str_of_description (description r)
                ++ newline ++ "        ")
    /\ (exists printed cluster_terms,
           ClusteringTest.cluster_analysis sklearn_stop_words tfidf_mean
                                           argsort df
           = (printed, Ok cluster_terms)
           /\ dict_lookup (cluster r) cluster_terms = Some top_terms
           /\ popup (ClusteringTest.circle_marker cluster_terms r)
              = newline ++ "        <b>Cluster:</b> "
                ++ str_of_id (cluster r) ++ "<br>"
                ++ newline ++ "        <b>Top Terms:</b> "
                ++ PyStr.join ", " top_terms ++ "<br>"
                ++ newline ++ "        <b>Description:</b> "
                ++ str_of_description (description r)
                ++ newline ++ "        ").
Proof.
  intros Hargsort Hlab Hr.
  assert (Hc : In (cluster r) (map cluster df)) by now apply in_map.
  pose proof (labelable_spec sklearn_stop_words df Hlab _ Hc) as Hvoc.
  pose proof (top_terms_of_terms sklearn_stop_words tfidf_mean argsort
                df (cluster r) Hargsort Hvoc) as Hrank.
  exists (top_terms_of sklearn_stop_words tfidf_mean argsort df (cluster r)).
  split; [now apply top_terms_of_ok|]. split; [exact Hrank|]. split.
  - destruct (cluster_analysis_report_2 sklearn_stop_words tfidf_mean
                argsort df Hlab) as (terms & Hrun & Hterms).
    eexists. exists terms. split; [exact Hrun|].
    split; [now apply Hterms|].
    cbn [ClusteringTest2.circle_marker popup]. unfold dict_get.
    rewrite (Hterms _ Hc). reflexivity.
  - destruct (cluster_analysis_report_1 sklearn_stop_words tfidf_mean
                argsort df Hlab) as (terms & Hrun & Hterms).
    eexists. exists terms. split; [exact Hrun|].
    split; [now apply Hterms|].
    cbn [ClusteringTest.circle_marker popup]. unfold dict_get.
    rewrite (Hterms _ Hc). reflexivity.
Qed.

(** X13.  clustering-test-2.py with any number of clusters: the markers of
    two rows that are not noise have the same colour exactly when the
    positions of their cluster ids among the sorted distinct ids agree
    modulo ten, so that ids ten positions apart share a colour; and no such
    marker is gray. *)
Theorem marker_colors_cycle (cluster_terms : dict (list string))
  (df : dataframe) (r1 r2 : row) :
  In r1 df -> In r2 df ->
  cluster r1 <> (-1)%Z -> cluster r2 <> (-1)%Z ->
  let ids := sorted (unique (map cluster df)) in
  let marker := ClusteringTest2.circle_marker
                  (ClusteringTest2.cluster_color_map df) cluster_terms in
  color (marker r1) <> "gray"
  /\ (color (marker r1) = color (marker r2)
      <-> (position_of (cluster r1) ids mod 10
           = position_of (cluster r2) ids mod 10)%nat).
Proof.
  intros H1 H2 Hn1 Hn2 ids marker. subst marker.
  destruct (marker_color_2 cluster_terms df r1 H1) as (_ & _ & Hc1).
  destruct (marker_color_2 cluster_terms df r2 H2) as (_ & _ & Hc2).
  fold ids in Hc1, Hc2. rewrite Hc1, Hc2.
  destruct color_palette_distinct as [Hnd Hgray].
  assert (Hreg : forall i c, c <> (-1)%Z ->
                   palette_color i c
                   = nth (i mod 10) ClusteringTest2.color_palette "").
  { intros i c Hc. unfold palette_color.
    destruct (Z.eqb_spec c (-1)); [contradiction|reflexivity]. }
  assert (Hlt : forall i, (i mod 10 < 10)%nat).
  { intros i. apply Nat.mod_upper_bound. discriminate. }
  rewrite !Hreg by assumption. split.
  - intros E. apply Hgray. rewrite <- E. apply nth_In. apply Hlt.
  - split.
    + intros E. apply (proj1 (NoDup_nth _ "") Hnd); [apply Hlt..|exact E].
    + intros ->. reflexivity.
Qed.

End PopupsAndCycle.

Lemma popups_witness :
  (forall scores, ascending_argsort insertion_argsort scores)
  /\ labelable SklearnStopWords.stop_words Samples.noise_and_cluster = true
  /\ (forall tfidf_mean r,
         nth_error Samples.noise_and_cluster 0 = Some r ->
         exists printed cluster_terms,
           ClusteringTest2.cluster_analysis SklearnStopWords.stop_words
             tfidf_mean insertion_argsort Samples.noise_and_cluster
           = (printed, Ok cluster_terms)
           /\ dict_lookup (-1) cluster_terms = Some ["quartzite"]
           /\ popup (ClusteringTest2.circle_marker
                       (ClusteringTest2.cluster_color_map
                          Samples.noise_and_cluster) cluster_terms r)
              = newline ++ "        <b>Cluster:</b> -1<br>"
                ++ newline ++ "        <b>Top Terms:</b> quartzite<br>"
                ++ newline ++ "        <b>Description:</b> Quartzite"
                ++ newline ++ "        ").
Proof.
  split; [exact insertion_argsort_ascending|].
  split; [reflexivity|]. intros w r E.
  assert (Hr : In r Samples.noise_and_cluster)
    by (eapply nth_error_In; exact E).
  injection E as <-.
  destruct (popups_show_cluster_terms SklearnStopWords.stop_words w
              insertion_argsort Samples.noise_and_cluster _
              insertion_argsort_ascending eq_refl Hr)
    as (top & Htop & _ & (printed & terms & Hrun & Hget & Hpopup) & _).
  assert (Etop : top = ["quartzite"]).
  { revert Htop. cbv. congruence. }
  subst top. exists printed, terms.
  split; [exact Hrun|]. split; [exact Hget|exact Hpopup].
Defined.

Lemma marker_colors_cycle_witness :
  map cluster eleven_clusters = [0; 1; 2; 3; 4; 5; 6; 7; 8; 9; 10]%Z
  /\ (forall cluster_terms r1 r2,
         nth_error eleven_clusters 0 = Some r1 ->
         nth_error eleven_clusters 10 = Some r2 ->
         color (ClusteringTest2.circle_marker
                  (ClusteringTest2.cluster_color_map eleven_clusters)
                  cluster_terms r1)
         = color (ClusteringTest2.circle_marker
                    (ClusteringTest2.cluster_color_map eleven_clusters)
                    cluster_terms r2)).
Proof.
  split; [reflexivity|]. intros terms r1 r2 E1 E2.
  assert (H1 : In r1 eleven_clusters) by (eapply nth_error_In; exact E1).
  assert (H2 : In r2 eleven_clusters) by (eapply nth_error_In; exact E2).
  injection E1 as <-. injection E2 as <-.
  apply (marker_colors_cycle terms eleven_clusters _ _ H1 H2);
    [discriminate|discriminate|reflexivity].
Defined.
